(** * gas-bridger: deployment bookkeeping and peer registration

    A shallow embedding of [gas_bridger/constants.py],
    [gas_bridger/relayer_config.py] and [deploy/deploy.py].

    Python integers are [Z], [str] values are [string] (one [ascii] per code
    point, so the code points below 256), [bytes] values are [list byte].  A
    [dict] is the list of its items in insertion order.  The calls into [boa],
    [os.urandom] and the file system are threaded through an explicit state;
    a raised exception is an outcome of its own. *)

From Stdlib Require Import ZArith NArith List String Ascii Bool Lia.
From Stdlib Require Import DecimalString DecimalPos DecimalZ Permutation Sorted.
From Stdlib.Strings Require Import Byte.
Import ListNotations.

Open Scope Z_scope.
Open Scope string_scope.

(** ** Python values *)

Module Py.

(** Keys of the dictionaries of this program: chain IDs ([int]) and, once a
    mapping went through JSON, their text ([str]). *)
Inductive pykey : Type :=
| KInt (n : Z)
| KStr (s : string).

Definition key_eqb (a b : pykey) : bool :=
  match a, b with
  | KInt x, KInt y => Z.eqb x y
  | KStr x, KStr y => String.eqb x y
  | _, _ => false
  end.

(** A [dict] whose values are [str]: items in insertion order. *)
Definition pydict : Type := list (pykey * string).

(** [d.get(k)], [None] when [k] is no key of [d]. *)
Fixpoint dict_get (k : pykey) (d : pydict) : option string :=
  match d with
  | [] => None
  | (k', v) :: d' => if key_eqb k k' then Some v else dict_get k d'
  end.

(** [d[k] = v]: an existing key keeps its position, a new key goes last. *)
Fixpoint dict_set (k : pykey) (v : string) (d : pydict) : pydict :=
  match d with
  | [] => [(k, v)]
  | (k', v') :: d' =>
      if key_eqb k k' then (k', v) :: d' else (k', v') :: dict_set k v d'
  end.

(** [dict(items)]: later items overwrite earlier ones with the same key. *)
Definition dict_of_items (items : list (pykey * string)) : pydict :=
  fold_left (fun d kv => dict_set (fst kv) (snd kv) d) items [].

Definition keys (d : pydict) : list pykey := map fst d.

(** Python's [d1 == d2] on dictionaries: the same keys with equal values. *)
Definition dict_eq (d1 d2 : pydict) : Prop :=
  forall k, dict_get k d1 = dict_get k d2.

(** What a function of this program may hand back where Python has
    [dict | None]. *)
Inductive pyobj : Type :=
| PNone
| PDict (d : pydict).

(** [str(n)] and [repr(n)] of an [int]: decimal digits, [-] when negative. *)
Definition str_of_int (n : Z) : string :=
  NilZero.string_of_int (Z.to_int n).

(** [s[n:]] *)
Fixpoint str_drop (n : nat) (s : string) : string :=
  match n, s with
  | O, _ => s
  | S _, EmptyString => EmptyString
  | S n', String _ s' => str_drop n' s'
  end.

(** The exceptions that reach the top of a run. *)
Inductive exn : Type :=
| KeyError (k : pykey)
| TypeError
| ValueError
| FileNotFoundError
| JSONDecodeError
| ConnectionError
| BoaError.

Inductive outcome (A : Type) : Type :=
| Returned (a : A)
| Raised (e : exn).
Arguments Returned {A} a.
Arguments Raised {A} e.

(** *** [bytes.fromhex] *)

Definition is_ascii_space (c : ascii) : bool :=
  let n := N_of_ascii c in
  (N.eqb n 32 || (N.leb 9 n && N.leb n 13))%bool.

Definition hexval (c : ascii) : option N :=
  let n := N_of_ascii c in
  if (N.leb 48 n && N.leb n 57)%bool then Some (n - 48)%N
  else if (N.leb 97 n && N.leb n 102)%bool then Some (n - 87)%N
  else if (N.leb 65 n && N.leb n 70)%bool then Some (n - 55)%N
  else None.

Definition byte_of_nibbles (hi lo : N) : byte :=
  byte_of_ascii (ascii_of_N (16 * hi + lo)).

(** Two hexadecimal digits per byte, ASCII whitespace between bytes is
    skipped; anything else is a [ValueError] ([None] here). *)
Fixpoint fromhex (s : string) : option (list byte) :=
  match s with
  | EmptyString => Some []
  | String c s1 =>
      if is_ascii_space c then fromhex s1
      else
        match s1 with
        | EmptyString => None
        | String c' s2 =>
            match hexval c, hexval c', fromhex s2 with
            | Some hi, Some lo, Some bs => Some (byte_of_nibbles hi lo :: bs)
            | _, _, _ => None
            end
        end
  end.

End Py.
Export Py.

(** ** gas_bridger/constants.py *)

Module Constants.

(** [class Network(IntEnum)]: the two members that are not commented out. *)
Inductive Network : Type :=
| ArbitrumSepolia
| Sepolia.

(** The [IntEnum] value of a member. *)
Definition value (n : Network) : Z :=
  match n with
  | ArbitrumSepolia => 421614
  | Sepolia => 11155111
  end.

(** An [IntEnum] member hashes and compares as its value, so a dictionary
    keyed by members is a dictionary keyed by their integers. *)
Definition LZ_EID : list (Z * Z) :=
  [ (value ArbitrumSepolia, 1);
    (value Sepolia, 1) ].

End Constants.

(** Subscription [d[k]] of a constant table keyed by integers. *)
Fixpoint table_get {V : Type} (k : Z) (t : list (Z * V)) : option V :=
  match t with
  | [] => None
  | (k', v) :: t' => if Z.eqb k k' then Some v else table_get k t'
  end.

Definition subscript {V : Type} (t : list (Z * V)) (k : Z) : outcome V :=
  match table_get k t with
  | Some v => Returned v
  | None => Raised (KeyError (KInt k))
  end.

(** ** The [json] module, as far as [relayer_config.py] uses it *)

Module Json.

Definition quote : ascii := "034"%char.
Definition backslash : ascii := "092"%char.
Definition newline : ascii := "010"%char.

(** *** [json.dump(obj, f, indent=4)] on a dictionary of strings *)

Definition hexdigit (n : N) : ascii :=
  ascii_of_N (if N.ltb n 10 then 48 + n else 87 + n).

(** ['\\u{0:04x}'.format(n)] for a code point below 256 *)
Definition u_escape (c : ascii) : string :=
  let n := N_of_ascii c in
  String backslash
    (String "u" (String "0" (String "0"
       (String (hexdigit (n / 16)) (String (hexdigit (n mod 16)) ""))))).

(** [ESCAPE_DCT] and the fallback of [py_encode_basestring_ascii]: every
    character outside [' '..'~'], the quote and the backslash are escaped. *)
Definition escape_char (c : ascii) : string :=
  let n := N_of_ascii c in
  if N.eqb n 34 then String backslash (String quote "")
  else if N.eqb n 92 then String backslash (String backslash "")
  else if N.eqb n 8 then String backslash "b"
  else if N.eqb n 12 then String backslash "f"
  else if N.eqb n 10 then String backslash "n"
  else if N.eqb n 13 then String backslash "r"
  else if N.eqb n 9 then String backslash "t"
  else if (N.leb 32 n && N.leb n 126)%bool then String c ""
  else u_escape c.

Fixpoint escape (s : string) : string :=
  match s with
  | EmptyString => EmptyString
  | String c s' => escape_char c ++ escape s'
  end.

Definition encode_basestring_ascii (s : string) : string :=
  String quote (escape s ++ String quote "").

(** The encoder turns a key that is an [int] into its [repr]; a [str] key is
    kept. *)
Definition json_key (k : pykey) : string :=
  match k with
  | KInt n => str_of_int n
  | KStr s => s
  end.

Definition newline_indent : string := String newline "    ".
Definition item_separator : string := "," ++ newline_indent.
Definition key_separator : string := ": ".

Definition encode_item (kv : pykey * string) : string :=
  encode_basestring_ascii (json_key (fst kv)) ++ key_separator
    ++ encode_basestring_ascii (snd kv).

Fixpoint encode_items (first : bool) (d : pydict) : string :=
  match d with
  | [] => ""
  | kv :: d' =>
      (if first then "" else item_separator)
        ++ encode_item kv ++ encode_items false d'
  end.

Definition dumps_indent4 (d : pydict) : string :=
  match d with
  | [] => "{}"
  | _ :: _ => "{" ++ newline_indent ++ encode_items true d ++ String newline "}"
  end.

(** *** [json.loads] on an object of strings *)

(** [WHITESPACE]: space, tab, line feed, carriage return *)
Definition is_ws (c : ascii) : bool :=
  let n := N_of_ascii c in
  (N.eqb n 32 || N.eqb n 9 || N.eqb n 10 || N.eqb n 13)%bool.

(** [BACKSLASH] of the decoder *)
Definition unescape (e : ascii) : option ascii :=
  let n := N_of_ascii e in
  if N.eqb n 34 then Some quote
  else if N.eqb n 92 then Some backslash
  else if N.eqb n 47 then Some "/"%char
  else if N.eqb n 98 then Some "008"%char
  else if N.eqb n 102 then Some "012"%char
  else if N.eqb n 110 then Some "010"%char
  else if N.eqb n 114 then Some "013"%char
  else if N.eqb n 116 then Some "009"%char
  else None.

(** The code point of [\uXXXX]; [None] as well when it is 256 or more, which
    a [string] here cannot hold. *)
Definition decode_uXXXX (a b c d : ascii) : option ascii :=
  match hexval a, hexval b, hexval c, hexval d with
  | Some x3, Some x2, Some x1, Some x0 =>
      if (N.eqb x3 0 && N.eqb x2 0)%bool
      then Some (ascii_of_N (16 * x1 + x0))
      else None
  | _, _, _, _ => None
  end.

Definition pairs : Type := list (string * string).

(** Which string is being scanned: a key, or the value of a key. *)
Inductive target : Type :=
| InKey (done : pairs)
| InValue (done : pairs) (key : string).

(** Where the decoder stands in [JSONObject]. *)
Inductive pstate : Type :=
| PStart
| PFirstKey
| PStr (t : target) (acc : string)
| PColon (done : pairs) (key : string)
| PValue (done : pairs) (key : string)
| PNext (done : pairs)
| PNextKey (done : pairs)
| PEnd (done : pairs).

Definition after_string (t : target) (s : string) : pstate :=
  match t with
  | InKey done => PColon done s
  | InValue done key => PNext (done ++ [(key, s)])%list
  end.

Definition snoc (s : string) (c : ascii) : string := s ++ String c "".

(** [None] stands for the documents this model does not read: the malformed
    ones, for which Python raises [JSONDecodeError], and those that are not
    one object whose members are strings of code points below 256. *)
Fixpoint scan (st : pstate) (s : string) {struct s} : option pairs :=
  match s with
  | EmptyString =>
      match st with
      | PEnd done => Some done
      | _ => None
      end
  | String c s' =>
      match st with
      | PStart =>
          if is_ws c then scan PStart s'
          else if Ascii.eqb c "{" then scan PFirstKey s'
          else None
      | PFirstKey =>
          if is_ws c then scan PFirstKey s'
          else if Ascii.eqb c "}" then scan (PEnd []) s'
          else if Ascii.eqb c quote then scan (PStr (InKey []) "") s'
          else None
      | PStr t acc =>
          if Ascii.eqb c quote then scan (after_string t acc) s'
          else if Ascii.eqb c backslash then
            match s' with
            | EmptyString => None
            | String e s2 =>
                if Ascii.eqb e "u" then
                  match s2 with
                  | String h3 (String h2 (String h1 (String h0 s6))) =>
                      match decode_uXXXX h3 h2 h1 h0 with
                      | Some ch => scan (PStr t (snoc acc ch)) s6
                      | None => None
                      end
                  | _ => None
                  end
                else
                  match unescape e with
                  | Some ch => scan (PStr t (snoc acc ch)) s2
                  | None => None
                  end
            end
          else if N.ltb (N_of_ascii c) 32 then None
          else scan (PStr t (snoc acc c)) s'
      | PColon done key =>
          if is_ws c then scan (PColon done key) s'
          else if Ascii.eqb c ":" then scan (PValue done key) s'
          else None
      | PValue done key =>
          if is_ws c then scan (PValue done key) s'
          else if Ascii.eqb c quote then scan (PStr (InValue done key) "") s'
          else None
      | PNext done =>
          if is_ws c then scan (PNext done) s'
          else if Ascii.eqb c "," then scan (PNextKey done) s'
          else if Ascii.eqb c "}" then scan (PEnd done) s'
          else None
      | PNextKey done =>
          if is_ws c then scan (PNextKey done) s'
          else if Ascii.eqb c quote then scan (PStr (InKey done) "") s'
          else None
      | PEnd done =>
          if is_ws c then scan (PEnd done) s' else None
      end
  end.

(** [object_pairs] become a [dict] keyed by [str]. *)
Definition dict_of_pairs (ps : pairs) : pydict :=
  dict_of_items (map (fun kv => (KStr (fst kv), snd kv)) ps).

Definition loads (s : string) : option pydict :=
  option_map dict_of_pairs (scan PStart s).

End Json.

(** ** The [yaml] module, as far as [deploy.py] uses it *)

Module Yaml.

(** The text of [deployments.yaml] is taken at the level of the document it
    denotes: the empty document, or one mapping with its entries in the
    order of the text. *)
Inductive document : Type :=
| Null
| Mapping (entries : list (pykey * string)).

(** [yaml.safe_load]: [None] for the empty document, a [dict] for a
    mapping (a repeated key keeps its last value). *)
Definition safe_load (doc : document) : pyobj :=
  match doc with
  | Null => PNone
  | Mapping entries => PDict (dict_of_items entries)
  end.

Definition is_int (k : pykey) : bool :=
  match k with KInt _ => true | KStr _ => false end.

Definition is_str (k : pykey) : bool :=
  match k with KInt _ => false | KStr _ => true end.

(** [<=] between two keys of one type. *)
Definition key_leb (a b : pykey) : bool :=
  match a, b with
  | KInt x, KInt y => Z.leb x y
  | KStr x, KStr y => String.leb x y
  | _, _ => true
  end.

Fixpoint insert (kv : pykey * string) (l : list (pykey * string))
  : list (pykey * string) :=
  match l with
  | [] => [kv]
  | kv' :: l' =>
      if key_leb (fst kv) (fst kv') then kv :: l else kv' :: insert kv l'
  end.

Fixpoint sort (l : list (pykey * string)) : list (pykey * string) :=
  match l with
  | [] => []
  | kv :: l' => insert kv (sort l')
  end.

(** [represent_mapping] with [sort_keys=True]: [sorted(mapping.items())],
    and the items as they are when comparing them raises [TypeError], which
    is when the keys are of both types. *)
Definition sorted_items (d : pydict) : list (pykey * string) :=
  if (forallb is_int (keys d) || forallb is_str (keys d))%bool
  then sort d
  else d.

(** [yaml.safe_dump] of a dictionary of strings. *)
Definition safe_dump (d : pydict) : document :=
  Mapping (sorted_items d).

End Yaml.

(** ** The files under [BASE_DIR] *)

Record files : Type := mkFiles {
  deployments_yaml : option Yaml.document; (* deploy/deployments.yaml *)
  deployments_json : option string;        (* gas_bridger/deployments.json *)
  gas_relayer_json : option string;        (* gas_bridger/abi/gas_relayer.json *)
  createX_json : option string             (* deploy/abi/createX.json *)
}.

Definition with_yaml (doc : Yaml.document) (fs : files) : files :=
  mkFiles (Some doc) (deployments_json fs) (gas_relayer_json fs)
          (createX_json fs).

Definition with_json (text : string) (fs : files) : files :=
  mkFiles (deployments_yaml fs) (Some text) (gas_relayer_json fs)
          (createX_json fs).

Definition with_abi (text : string) (fs : files) : files :=
  mkFiles (deployments_yaml fs) (deployments_json fs) (Some text)
          (createX_json fs).

(** ** gas_bridger/relayer_config.py *)

Module ChainMarketManager.

(** [get_file_name] is [DIR / "deployments.json"], the field
    [deployments_json] of [files]. *)

Definition load_config (fs : files) : outcome pyobj :=
  match deployments_json fs with
  | None => Returned PNone
  | Some text =>
      match Json.loads text with
      | Some json_config => Returned (PDict json_config)
      | None => Raised JSONDecodeError
      end
  end.

Definition update_config (json_config : pydict) (fs : files) : files :=
  with_json (Json.dumps_indent4 json_config ++ String Json.newline "") fs.

End ChainMarketManager.

(** ** deploy/deploy.py *)

Module Deploy.

Definition createX_address : string :=
  "0xba5Ed099633D3B313e4D5F7bdc1305d3c28ba5Ed".

Definition lz_endpoints : list (Z * string) :=
  [ (421614, "0x6EDCE65403992e310A62460808c4b910D972f10f");
    (11155111, "0x6EDCE65403992e310A62460808c4b910D972f10f") ].

(** The calls that leave the process, in the order they are made. *)
Inductive event : Type :=
| SetNetworkEnv (url : string)
| AddAccount
| LoadPartial
| DeployCreate3 (salt deploycode : list byte)
| LoggingInfo (msg : string)
| At (address : string)
| SetPeer (contract : string) (eid : Z) (peer : string).

(** What the settings, the chain, the compiler and the operating system
    answer during one run. *)
Record environment : Type := mkEnv {
  WEB3_PROVIDER_URL : string;
  rpc_reachable : bool;        (* [boa.set_network_env] connects *)
  rpc_chain_id : Z;            (* [boa.env.evm.patch.chain_id] *)
  eoa : string;                (* [boa.env.eoa] *)
  urandom_source : nat -> byte;(* the bytes [os.urandom] hands out, in order *)
  bytecode : list byte;        (* [compiler_data.bytecode] of GasRelayer.vy *)
  abi_json : string;           (* [json.dumps(contract.abi, indent=4)] *)
  abi_encode : string -> Z -> list byte;
                               (* [abi_encode("(address,uint256)", ...)] *)
  createX_deployCreate3 : list byte -> list byte -> option string;
                               (* the address, or the call fails *)
  relayer_set_peer : string -> Z -> string -> bool
                               (* the transaction goes through *)
}.

Record state : Type := mkState {
  fs : files;
  trace : list event;          (* oldest first *)
  drawn : nat                  (* bytes taken from [urandom_source] *)
}.

(** A statement: a result or an exception, and the state it leaves. *)
Definition M (A : Type) : Type := state -> outcome A * state.

Definition ret {A : Type} (a : A) : M A := fun st => (Returned a, st).

Definition raise {A : Type} (e : exn) : M A := fun st => (Raised e, st).

Definition bind {A B : Type} (m : M A) (k : A -> M B) : M B :=
  fun st =>
    match m st with
    | (Returned a, st') => k a st'
    | (Raised e, st') => (Raised e, st')
    end.

Notation "x <- m ;; k" := (bind m (fun x => k))
  (at level 61, m at next level, right associativity).
Notation "m ;;; k" := (bind m (fun _ => k))
  (at level 61, right associativity).

Definition lift {A : Type} (o : outcome A) : M A := fun st => (o, st).

Definition emit (e : event) : M unit :=
  fun st => (Returned tt, mkState (fs st) (trace st ++ [e])%list (drawn st)).

Definition get_files : M files := fun st => (Returned (fs st), st).

Definition put_files (f : files) : M unit :=
  fun st => (Returned tt, mkState f (trace st) (drawn st)).

(** [d[k] = v] on what [safe_load] returned. *)
Definition setitem (o : pyobj) (k : pykey) (v : string) : outcome pyobj :=
  match o with
  | PNone => Raised TypeError
  | PDict d => Returned (PDict (dict_set k v d))
  end.

(** [d[k]] on what [safe_load] returned. *)
Definition getitem (o : pyobj) (k : pykey) : outcome string :=
  match o with
  | PNone => Raised TypeError
  | PDict d =>
      match dict_get k d with
      | Some v => Returned v
      | None => Raised (KeyError k)
      end
  end.

Section Run.

Variable E : environment.

Definition set_network_env (url : string) : M unit :=
  emit (SetNetworkEnv url) ;;;
  if rpc_reachable E then ret tt else raise ConnectionError.

Definition bytes_fromhex (s : string) : M (list byte) :=
  match fromhex s with
  | Some bs => ret bs
  | None => raise ValueError
  end.

(** [os.urandom(n)] *)
Definition urandom (n : nat) : M (list byte) :=
  fun st =>
    (Returned (map (urandom_source E) (seq (drawn st) n)),
     mkState (fs st) (trace st) (drawn st + n)).

(** [with open(path) as f: f.read()] *)
Definition read_text (field : files -> option string) : M string :=
  f <- get_files ;;
  match field f with
  | Some text => ret text
  | None => raise FileNotFoundError
  end.

(** [deployments = {}], replaced by the loaded document when the file
    exists. *)
Definition load_deployments : M pyobj :=
  f <- get_files ;;
  match deployments_yaml f with
  | Some doc => ret (Yaml.safe_load doc)
  | None => ret (PDict [])
  end.

(** [yaml.safe_dump] takes a [dict]; [deployments] is one whenever the
    item assignment before it returned. *)
Definition dump_deployments (o : pyobj) : M unit :=
  match o with
  | PDict d =>
      f <- get_files ;;
      put_files (with_yaml (Yaml.safe_dump d) f)
  | PNone => raise TypeError
  end.

Definition deployCreate3 (salt deploycode : list byte) : M string :=
  emit (DeployCreate3 salt deploycode) ;;;
  match createX_deployCreate3 E salt deploycode with
  | Some address => ret address
  | None => raise BoaError
  end.

Definition contract_set_peer (contract : string) (eid : Z) (peer : string)
  : M unit :=
  emit (SetPeer contract eid peer) ;;;
  if relayer_set_peer E contract eid peer then ret tt else raise BoaError.

Definition set_peer : M unit :=
  set_network_env (WEB3_PROVIDER_URL E) ;;;
  emit AddAccount ;;;
  let chain_id := rpc_chain_id E in
  deployments <- load_deployments ;;
  emit LoadPartial ;;;
  address <- lift (getitem deployments (KInt chain_id)) ;;
  emit (At address) ;;;
  let contract := address in
  peer <- lift (getitem deployments (KInt 11155111)) ;;
  contract_set_peer contract 4294967294 peer.

(** [deploy], lines 27 to 59: connect, deploy through the factory, write
    the ABI and the deployments file.  The value is [chain_id]. *)
Definition connect_and_deploy : M Z :=
  set_network_env (WEB3_PROVIDER_URL E) ;;;
  emit AddAccount ;;;
  let chain_id := rpc_chain_id E in
  guard_bytes <- bytes_fromhex (str_drop 2 (eoa E) ++ "00") ;;
  bytes_view <- urandom 11 ;;
  let salt_view := (guard_bytes ++ bytes_view)%list in
  createX_abi <- read_text createX_json ;;
  emit LoadPartial ;;;
  let bytecode := bytecode E in
  endpoint <- lift (subscript lz_endpoints chain_id) ;;
  let args := abi_encode E endpoint 500000 in
  let deploycode := (bytecode ++ args)%list in
  address <- deployCreate3 salt_view deploycode ;;
  emit (LoggingInfo ("Gas relayer deployed at " ++ address
                       ++ " on chain: " ++ str_of_int chain_id)) ;;;
  emit (At address) ;;;
  f <- get_files ;;
  put_files (with_abi (abi_json E ++ String Json.newline "") f) ;;;
  deployments <- load_deployments ;;
  deployments <- lift (setitem deployments (KInt chain_id) address) ;;
  dump_deployments deployments ;;;
  ret chain_id.

(** [deploy]: the lines above, then lines 61 and 62. *)
Definition deploy : M unit :=
  chain_id <- connect_and_deploy ;;
  if negb (Z.eqb chain_id 11155111) then set_peer else ret tt.

End Run.

(** A process starts with the files on disk, no call made and no random
    byte drawn. *)
Definition start (f : files) : state := mkState f [] 0.

Definition is_set_peer (e : event) : bool :=
  match e with
  | SetPeer _ _ _ => true
  | _ => false
  end.

(** The peer registrations sent to a contract, oldest first. *)
Definition set_peer_calls (tr : list event) : list event :=
  filter is_set_peer tr.

End Deploy.

(** ** Notions of the statements *)

(** The chains the registry knows: the members of [Network]. *)
Definition supported (c : Z) : Prop :=
  exists n : Constants.Network, Constants.value n = c.

(** The address recorded under key [k] in [deployments.yaml], read the way
    [deploy] and [set_peer] read it. *)
Definition recorded (f : files) (k : pykey) : option string :=
  match deployments_yaml f with
  | None => None
  | Some doc =>
      match Yaml.safe_load doc with
      | PNone => None
      | PDict d => dict_get k d
      end
  end.

(** Hexadecimal text of a byte string; [upper i] tells whether digit [i] is
    written in upper case, as the checksum of an address decides. *)
Definition hex_char (up : bool) (n : N) : ascii :=
  ascii_of_N (if N.ltb n 10 then 48 + n else if up then 55 + n else 87 + n).

Fixpoint hex_text (upper : nat -> bool) (i : nat) (bs : list byte) : string :=
  match bs with
  | [] => ""
  | b :: bs' =>
      let n := Byte.to_N b in
      String (hex_char (upper i) (n / 16))
        (String (hex_char (upper (S i)) (n mod 16))
           (hex_text upper (S (S i)) bs'))
  end.

(** The text [boa] shows for the address [bs]. *)
Definition address_text (upper : nat -> bool) (bs : list byte) : string :=
  "0x" ++ hex_text upper 0 bs.

(** What [load_deployments] returns for the files [f]. *)
Definition loaded (f : files) : pyobj :=
  match deployments_yaml f with
  | Some doc => Yaml.safe_load doc
  | None => PDict []
  end.

(** The eleven bytes [os.urandom(11)] returns in state [st]. *)
Definition bytes_view (E : Deploy.environment) (st : Deploy.state)
  : list byte :=
  map (Deploy.urandom_source E) (seq (Deploy.drawn st) 11).

Definition is_connect (e : Deploy.event) : bool :=
  match e with
  | Deploy.SetNetworkEnv _ => true
  | _ => false
  end.

(** How many times a run connected to the chain. *)
Definition connections (tr : list Deploy.event) : nat :=
  List.length (filter is_connect tr).

(** A sample run: a reachable chain, a deployer, a factory that answers with
    one address, and both chains on record. *)
Definition sample_deployer : list byte :=
  [x8a; x3b; xde; x11; x02; x9c; x47; xf0; x55; x6e;
   xa1; x0d; x73; xc4; x19; xee; x28; xb6; x90; x5f].

Definition sample_address : string :=
  "0x2222222222222222222222222222222222222222".

Definition sample_home_address : string :=
  "0x1111111111111111111111111111111111111111".

Definition sample_env_drawing (b : byte) (chain_id : Z)
  : Deploy.environment :=
  Deploy.mkEnv "http://127.0.0.1:8545" true chain_id
    (address_text (fun i => Nat.even i) sample_deployer)
    (fun i => b) [x60; x80] "[]" (fun _ _ => [])
    (fun _ _ => Some sample_address) (fun _ _ _ => true).

Definition sample_env (chain_id : Z) : Deploy.environment :=
  sample_env_drawing x2a chain_id.

Definition sample_files : files :=
  mkFiles
    (Some (Yaml.Mapping [(KInt 11155111, sample_home_address);
                         (KInt 421614, sample_address)]))
    None None (Some "[]").

(** No file written yet. *)
Definition no_files : files := mkFiles None None None None.

(** The [dict] of a list of chain IDs with their addresses. *)
Definition chain_dict (m : list (Z * string)) : pydict :=
  map (fun ca => (KInt (fst ca), snd ca)) m.

(** An item as the decoder's pair: the key as the encoder writes it. *)
Definition pair_of (kv : pykey * string) : string * string :=
  (Json.json_key (fst kv), snd kv).

(** What the JSON encoder makes of an item: the key as text. *)
Definition as_json_item (kv : pykey * string) : pykey * string :=
  (KStr (Json.json_key (fst kv)), snd kv).


(** ** Notions of the further properties *)

Fixpoint string_forallb (p : ascii -> bool) (s : string) : bool :=
  match s with
  | EmptyString => true
  | String c s' => (p c && string_forallb p s')%bool
  end.

(** A printable ASCII character or a line feed. *)
Definition is_plain_ascii (c : ascii) : bool :=
  let n := N_of_ascii c in
  (N.eqb n 10 || (N.leb 32 n && N.leb n 126))%bool.

(** The value of the last item of [items] whose key is [k]. *)
Definition lookup_last (k : pykey) (items : list (pykey * string))
  : option string :=
  fold_left (fun r kv => if key_eqb k (fst kv) then Some (snd kv) else r)
            items None.

Definition is_factory_call (e : Deploy.event) : bool :=
  match e with
  | Deploy.DeployCreate3 _ _ => true
  | _ => false
  end.

(** The calls of the factory's [deployCreate3], oldest first. *)
Definition factory_calls (tr : list Deploy.event) : list Deploy.event :=
  filter is_factory_call tr.

(** Entries in ascending order of their keys. *)
Definition ascending (entries : list (pykey * string)) : Prop :=
  Sorted (fun a b => Yaml.key_leb (fst a) (fst b) = true) entries.

(** Sample runs with a deployments file and a deployer address of one's
    choice. *)
Definition sample_files_with (doc : option Yaml.document) : files :=
  mkFiles doc None None (Some "[]").

Definition sample_env_of (deployer : string) (chain_id : Z)
  : Deploy.environment :=
  Deploy.mkEnv "http://127.0.0.1:8545" true chain_id deployer
    (fun i => Byte.x2a) [x60; x80] "[]" (fun _ _ => [])
    (fun _ _ => Some sample_address) (fun _ _ _ => true).

(** * Properties *)

Open Scope list_scope.

(** ** Dictionaries *)

Lemma key_eqb_eq (a b : pykey) : key_eqb a b = true <-> a = b.
Proof.
  destruct a as [x|x], b as [y|y]; simpl; split; intro H;
    try discriminate; try congruence.
  - apply Z.eqb_eq in H. now subst.
  - injection H as ->. apply Z.eqb_refl.
  - apply String.eqb_eq in H. now subst.
  - injection H as ->. apply String.eqb_refl.
Qed.

Lemma key_eqb_refl (a : pykey) : key_eqb a a = true.
Proof. now apply key_eqb_eq. Qed.

Lemma key_eqb_neq (a b : pykey) : a <> b -> key_eqb a b = false.
Proof.
  intro H. destruct (key_eqb a b) eqn:Hab; [|reflexivity].
  apply key_eqb_eq in Hab. contradiction.
Qed.

Lemma dict_get_set_same (k : pykey) (v : string) (d : pydict) :
  dict_get k (dict_set k v d) = Some v.
Proof.
  induction d as [|[k' v'] d IH]; simpl.
  - now rewrite key_eqb_refl.
  - destruct (key_eqb k k') eqn:Hk; simpl; rewrite Hk; auto.
Qed.

Lemma dict_get_set_other (k k' : pykey) (v : string) (d : pydict) :
  k' <> k -> dict_get k' (dict_set k v d) = dict_get k' d.
Proof.
  intro Hne. induction d as [|[k0 v0] d IH]; simpl.
  - now rewrite (key_eqb_neq k' k).
  - destruct (key_eqb k k0) eqn:Hk; simpl.
    + apply key_eqb_eq in Hk. subst k0.
      now rewrite (key_eqb_neq k' k).
    + now rewrite IH.
Qed.

Lemma dict_get_None (k : pykey) (d : pydict) :
  dict_get k d = None <-> ~ In k (keys d).
Proof.
  induction d as [|[k' v'] d IH]; simpl.
  - tauto.
  - destruct (key_eqb k k') eqn:Hk.
    + apply key_eqb_eq in Hk. subst. split; [discriminate | tauto].
    + rewrite IH. split.
      * intros Hn [He|Hi]; [|tauto].
        subst. rewrite key_eqb_refl in Hk. discriminate.
      * tauto.
Qed.

Lemma dict_get_Some_In (k : pykey) (v : string) (d : pydict) :
  dict_get k d = Some v -> In (k, v) d.
Proof.
  induction d as [|[k' v'] d IH]; simpl; [discriminate|].
  destruct (key_eqb k k') eqn:Hk.
  - apply key_eqb_eq in Hk. subst. intros [= ->]. now left.
  - auto.
Qed.

Lemma dict_get_In (k : pykey) (v : string) (d : pydict) :
  NoDup (keys d) -> In (k, v) d -> dict_get k d = Some v.
Proof.
  induction d as [|[k' v'] d IH]; simpl; [tauto|].
  intros Hnd [He|Hi].
  - injection He as -> ->. now rewrite key_eqb_refl.
  - inversion Hnd as [|? ? Hnotin Hnd']; subst.
    destruct (key_eqb k k') eqn:Hk.
    + apply key_eqb_eq in Hk. subst k'. exfalso. apply Hnotin.
      change (In (fst (k, v)) (map fst d)). now apply in_map.
    + auto.
Qed.

Lemma dict_get_perm (k : pykey) (d d' : pydict) :
  NoDup (keys d) -> Permutation d d' -> dict_get k d = dict_get k d'.
Proof.
  intros Hnd Hp.
  assert (Hnd' : NoDup (keys d')).
  { eapply Permutation_NoDup; [|exact Hnd]. now apply Permutation_map. }
  destruct (dict_get k d) as [v|] eqn:Hg.
  - symmetry. apply dict_get_In; [exact Hnd'|].
    eapply Permutation_in; [exact Hp|]. now apply dict_get_Some_In.
  - symmetry. apply dict_get_None. apply dict_get_None in Hg.
    intro Hin. apply Hg. eapply Permutation_in; [|exact Hin].
    apply Permutation_sym. now apply Permutation_map.
Qed.

Lemma keys_dict_set_absent (k : pykey) (v : string) (d : pydict) :
  ~ In k (keys d) -> dict_set k v d = (d ++ [(k, v)])%list.
Proof.
  induction d as [|[k' v'] d IH]; simpl; [reflexivity|].
  intro Hn. rewrite key_eqb_neq by (intro; subst; tauto).
  rewrite IH by tauto. reflexivity.
Qed.

Lemma keys_dict_set (k : pykey) (v : string) (d : pydict) :
  keys (dict_set k v d)
  = match dict_get k d with Some _ => keys d | None => keys d ++ [k] end.
Proof.
  induction d as [|[k' v'] d IH]; simpl; [reflexivity|].
  destruct (key_eqb k k') eqn:Hk; simpl; [reflexivity|].
  rewrite IH. now destruct (dict_get k d).
Qed.

Lemma NoDup_keys_dict_set (k : pykey) (v : string) (d : pydict) :
  NoDup (keys d) -> NoDup (keys (dict_set k v d)).
Proof.
  intro Hnd. rewrite keys_dict_set.
  destruct (dict_get k d) eqn:Hg; [exact Hnd|].
  apply dict_get_None in Hg.
  apply NoDup_rev in Hnd. rewrite <- (rev_involutive (keys d ++ [k])).
  apply NoDup_rev. rewrite rev_app_distr. simpl.
  constructor; [|exact Hnd]. now rewrite <- in_rev.
Qed.

Lemma fold_dict_set_NoDup (items : list (pykey * string)) (acc : pydict) :
  NoDup (keys acc) ->
  NoDup (keys (fold_left (fun d kv => dict_set (fst kv) (snd kv) d) items acc)).
Proof.
  revert acc. induction items as [|kv items IH]; simpl; intros acc Hnd.
  - exact Hnd.
  - apply IH. now apply NoDup_keys_dict_set.
Qed.

Lemma NoDup_keys_dict_of_items (items : list (pykey * string)) :
  NoDup (keys (dict_of_items items)).
Proof. apply fold_dict_set_NoDup. constructor. Qed.

Lemma fold_dict_set_fresh (items : list (pykey * string)) (acc : pydict) :
  NoDup (keys (acc ++ items)) ->
  fold_left (fun d kv => dict_set (fst kv) (snd kv) d) items acc
  = (acc ++ items)%list.
Proof.
  revert acc. induction items as [|[k v] items IH]; simpl; intros acc Hnd.
  - now rewrite app_nil_r.
  - assert (Hsplit : (acc ++ (k, v) :: items = (acc ++ [(k, v)]) ++ items)%list)
      by now rewrite <- app_assoc.
    rewrite keys_dict_set_absent.
    + rewrite IH; [now rewrite <- app_assoc|]. now rewrite <- Hsplit.
    + unfold keys in *. rewrite map_app in Hnd. simpl in Hnd.
      apply NoDup_remove_2 in Hnd. intro Hin. apply Hnd.
      apply in_or_app. now left.
Qed.

(** A list of items with distinct keys is the dictionary it builds. *)
Lemma dict_of_items_NoDup (items : list (pykey * string)) :
  NoDup (keys items) -> dict_of_items items = items.
Proof. intro Hnd. unfold dict_of_items. now rewrite fold_dict_set_fresh. Qed.

(** ** What [yaml.safe_dump] stores is what [yaml.safe_load] reads back *)

Lemma insert_perm (kv : pykey * string) (l : list (pykey * string)) :
  Permutation (Yaml.insert kv l) (kv :: l).
Proof.
  induction l as [|kv' l IH]; simpl; [apply Permutation_refl|].
  destruct (Yaml.key_leb (fst kv) (fst kv')); [apply Permutation_refl|].
  eapply Permutation_trans; [apply perm_skip, IH | apply perm_swap].
Qed.

Lemma sort_perm (l : list (pykey * string)) : Permutation (Yaml.sort l) l.
Proof.
  induction l as [|kv l IH]; simpl; [constructor|].
  eapply Permutation_trans; [apply insert_perm | now apply perm_skip].
Qed.

Lemma sorted_items_perm (d : pydict) : Permutation (Yaml.sorted_items d) d.
Proof.
  unfold Yaml.sorted_items.
  destruct (forallb Yaml.is_int (keys d) || forallb Yaml.is_str (keys d))%bool;
    [apply sort_perm | apply Permutation_refl].
Qed.

Lemma NoDup_keys_sorted_items (d : pydict) :
  NoDup (keys d) -> NoDup (keys (Yaml.sorted_items d)).
Proof.
  intro Hnd. eapply Permutation_NoDup; [|exact Hnd].
  apply Permutation_map, Permutation_sym, sorted_items_perm.
Qed.

Lemma safe_load_safe_dump (d : pydict) :
  NoDup (keys d) ->
  Yaml.safe_load (Yaml.safe_dump d) = PDict (Yaml.sorted_items d).
Proof.
  intro Hnd. simpl. now rewrite dict_of_items_NoDup
    by now apply NoDup_keys_sorted_items.
Qed.

Lemma dict_get_sorted_items (k : pykey) (d : pydict) :
  NoDup (keys d) -> dict_get k (Yaml.sorted_items d) = dict_get k d.
Proof.
  intro Hnd. symmetry. apply dict_get_perm; [exact Hnd|].
  apply Permutation_sym, sorted_items_perm.
Qed.

(** ** The decoder reads back what the encoder wrote *)

Lemma string_app_assoc (a b c : string) :
  ((a ++ b) ++ c)%string = (a ++ (b ++ c))%string.
Proof. induction a as [|x a IH]; simpl; [reflexivity | now rewrite IH]. Qed.

Lemma string_app_nil_r (a : string) : (a ++ "")%string = a.
Proof. induction a as [|x a IH]; simpl; [reflexivity | now rewrite IH]. Qed.

Lemma snoc_app (acc : string) (c : ascii) (s : string) :
  (Json.snoc acc c ++ s)%string = (acc ++ String c s)%string.
Proof. unfold Json.snoc. now rewrite string_app_assoc. Qed.

(** One escaped character is read back as that character. *)
Lemma scan_escape_char (c : ascii) (t : Json.target) (acc rest : string) :
  Json.scan (Json.PStr t acc) (Json.escape_char c ++ rest)%string
  = Json.scan (Json.PStr t (Json.snoc acc c)) rest.
Proof.
  destruct c as [[] [] [] [] [] [] [] []]; reflexivity.
Qed.

Lemma scan_escape (s : string) (t : Json.target) (acc rest : string) :
  Json.scan (Json.PStr t acc) (Json.escape s ++ String Json.quote rest)%string
  = Json.scan (Json.after_string t (acc ++ s)%string) rest.
Proof.
  revert acc. induction s as [|c s IH]; intro acc.
  - simpl. now rewrite string_app_nil_r.
  - simpl Json.escape. rewrite string_app_assoc, scan_escape_char, IH.
    now rewrite snoc_app.
Qed.

Lemma encode_item_app (kv : pykey * string) (rest : string) :
  (Json.encode_item kv ++ rest)%string
  = String Json.quote
      (Json.escape (Json.json_key (fst kv))
         ++ String Json.quote
              (String ":" (String " "
                 (String Json.quote
                    (Json.escape (snd kv) ++ String Json.quote rest)))))%string.
Proof.
  unfold Json.encode_item, Json.encode_basestring_ascii, Json.key_separator.
  simpl. repeat rewrite string_app_assoc. simpl.
  repeat rewrite string_app_assoc. reflexivity.
Qed.

(** A key, the colon and a value, from inside the key's opening quote. *)
Lemma scan_item_body (done : Json.pairs) (key v rest : string) :
  Json.scan (Json.PStr (Json.InKey done) "")
    (Json.escape key
       ++ String Json.quote
            (String ":" (String " "
               (String Json.quote
                  (Json.escape v ++ String Json.quote rest)))))%string
  = Json.scan (Json.PNext (done ++ [(key, v)])) rest.
Proof.
  rewrite scan_escape. simpl Json.after_string.
  change (Json.scan (Json.PStr (Json.InValue done key) "")
            (Json.escape v ++ String Json.quote rest)%string
          = Json.scan (Json.PNext (done ++ [(key, v)])) rest).
  now rewrite scan_escape.
Qed.

Lemma encode_items_cons (first : bool) (kv : pykey * string) (d : pydict)
      (rest : string) :
  (Json.encode_items first (kv :: d) ++ rest)%string
  = ((if first then "" else Json.item_separator)
       ++ (Json.encode_item kv ++ (Json.encode_items false d ++ rest)))%string.
Proof.
  change (Json.encode_items first (kv :: d))
    with ((if first then "" else Json.item_separator)
            ++ Json.encode_item kv ++ Json.encode_items false d)%string.
  now rewrite !string_app_assoc.
Qed.

Lemma scan_items (d : pydict) (done : Json.pairs) (rest : string) :
  Json.scan (Json.PNext done) (Json.encode_items false d ++ rest)%string
  = Json.scan (Json.PNext (done ++ map pair_of d)) rest.
Proof.
  revert done. induction d as [|kv d IH]; intro done.
  - simpl. now rewrite app_nil_r.
  - rewrite encode_items_cons, encode_item_app.
    match goal with
    | |- Json.scan _ (Json.item_separator ++ String Json.quote ?X)%string = _ =>
        change (Json.scan (Json.PStr (Json.InKey done) "") X
                = Json.scan (Json.PNext (done ++ map pair_of (kv :: d))) rest)
    end.
    rewrite scan_item_body, IH. simpl map.
    now rewrite <- app_assoc.
Qed.

Lemma dumps_indent4_cons (kv : pykey * string) (d : pydict) (rest : string) :
  (Json.dumps_indent4 (kv :: d) ++ rest)%string
  = String "{"
      (Json.newline_indent
         ++ (Json.encode_items true (kv :: d)
               ++ String Json.newline (String "}" rest)))%string.
Proof.
  unfold Json.dumps_indent4. rewrite !string_app_assoc. reflexivity.
Qed.

Lemma loads_dumps (d : pydict) :
  Json.loads (Json.dumps_indent4 d ++ String Json.newline "")%string
  = Some (dict_of_items (map as_json_item d)).
Proof.
  unfold Json.loads.
  assert (Hscan :
    Json.scan Json.PStart
      (Json.dumps_indent4 d ++ String Json.newline "")%string
    = Some (map pair_of d)).
  { destruct d as [|kv d]; [reflexivity|].
    rewrite dumps_indent4_cons, encode_items_cons, encode_item_app.
    match goal with
    | |- Json.scan _ (String "{" (Json.newline_indent
           ++ ("" ++ String Json.quote ?X)))%string = _ =>
        change (Json.scan (Json.PStr (Json.InKey []) "") X
                = Some (map pair_of (kv :: d)))
    end.
    rewrite scan_item_body, scan_items. reflexivity. }
  rewrite Hscan. simpl. unfold Json.dict_of_pairs.
  rewrite map_map. reflexivity.
Qed.

Lemma str_of_int_inj (a b : Z) : str_of_int a = str_of_int b -> a = b.
Proof.
  unfold str_of_int. intro H.
  assert (Hn : forall z, Z.to_int z <> Decimal.Pos Decimal.Nil
                         /\ Z.to_int z <> Decimal.Neg Decimal.Nil).
  { intros [|p|p]; simpl; split; try discriminate;
      intro Hc; injection Hc; apply Unsigned.to_uint_nonnil. }
  apply to_int_inj.
  assert (Hs : Some (Z.to_int a) = Some (Z.to_int b)).
  { rewrite <- (NilZero.isi (Z.to_int a)) by apply Hn.
    rewrite <- (NilZero.isi (Z.to_int b)) by apply Hn.
    now rewrite H. }
  now injection Hs.
Qed.

Lemma as_json_item_chain_dict (m : list (Z * string)) :
  map as_json_item (chain_dict m)
  = map (fun ca => (KStr (str_of_int (fst ca)), snd ca)) m.
Proof. unfold chain_dict. rewrite map_map. reflexivity. Qed.

Lemma NoDup_keys_as_text (m : list (Z * string)) :
  NoDup (map fst m) ->
  NoDup (keys (map (fun ca => (KStr (str_of_int (fst ca)), snd ca)) m)).
Proof.
  unfold keys. rewrite map_map. simpl.
  induction m as [|[c a] m IH]; simpl; intro Hnd; [constructor|].
  inversion Hnd as [|? ? Hnotin Hnd']; subst. constructor; [|auto].
  intro Hin. apply in_map_iff in Hin. destruct Hin as [[c' a'] [Heq Hin]].
  simpl in Heq. injection Heq as Heq. apply str_of_int_inj in Heq. subst c'.
  apply Hnotin. change c with (fst (c, a')). now apply in_map.
Qed.

Lemma as_json_item_str (d : pydict) :
  forallb Yaml.is_str (keys d) = true -> map as_json_item d = d.
Proof.
  induction d as [|[[n|k] v] d IH]; simpl; intro H;
    [reflexivity | discriminate |].
  now rewrite IH.
Qed.

(** What [load_config] returns after [update_config], for any dictionary. *)
Lemma load_after_update (d : pydict) (f : files) :
  ChainMarketManager.load_config (ChainMarketManager.update_config d f)
  = Returned (PDict (dict_of_items (map as_json_item d))).
Proof.
  unfold ChainMarketManager.load_config, ChainMarketManager.update_config,
    with_json.
  cbn [deployments_json]. now rewrite loads_dumps.
Qed.

(** ** Runs of [deploy.py] *)

Import Deploy.

Ltac unfold_run :=
  cbv beta iota zeta delta
    [deploy connect_and_deploy set_peer set_network_env bytes_fromhex urandom
     read_text load_deployments dump_deployments deployCreate3
     contract_set_peer lift emit get_files put_files bind ret raise];
  cbn [fs trace drawn].

Ltac step_run := cbv beta iota; cbn [fs trace drawn].

Ltac split_run :=
  repeat (step_run; match goal with
  | |- context [if ?b then _ else _] => destruct b eqn:?
  | |- context [match ?x with Some _ => _ | None => _ end] =>
      destruct x eqn:?
  | |- context [match ?x with Returned _ => _ | Raised _ => _ end] =>
      destruct x eqn:?
  | |- context [match ?x with PNone => _ | PDict _ => _ end] =>
      destruct x eqn:?
  end); step_run.

Lemma set_peer_fs (E : environment) (st : state) :
  fs (snd (set_peer E st)) = fs st.
Proof. unfold_run. split_run; reflexivity. Qed.

(** [set_peer], outcome by outcome. *)
Lemma set_peer_run (E : environment) (st : state) :
  set_peer E st =
  let connect := trace st ++ [SetNetworkEnv (WEB3_PROVIDER_URL E)] in
  if rpc_reachable E then
    match getitem (loaded (fs st)) (KInt (rpc_chain_id E)) with
    | Raised e =>
        (Raised e,
         mkState (fs st) (connect ++ [AddAccount; LoadPartial]) (drawn st))
    | Returned a =>
        match getitem (loaded (fs st)) (KInt 11155111) with
        | Raised e =>
            (Raised e,
             mkState (fs st) (connect ++ [AddAccount; LoadPartial; At a])
                     (drawn st))
        | Returned h =>
            (if relayer_set_peer E a 4294967294 h
             then Returned tt else Raised BoaError,
             mkState (fs st)
                     (connect ++ [AddAccount; LoadPartial; At a;
                                  SetPeer a 4294967294 h])
                     (drawn st))
        end
    end
  else (Raised ConnectionError, mkState (fs st) connect (drawn st)).
Proof.
  unfold loaded. unfold_run.
  destruct (rpc_reachable E); [|reflexivity]. step_run.
  destruct (deployments_yaml (fs st)) as [doc|]; step_run.
  - destruct (getitem (Yaml.safe_load doc) (KInt (rpc_chain_id E)));
      step_run; [|now rewrite <- !app_assoc].
    destruct (getitem (Yaml.safe_load doc) (KInt 11155111));
      step_run; [|now rewrite <- !app_assoc].
    rewrite <- !app_assoc.
    now destruct (relayer_set_peer E a 4294967294 a0).
  - destruct (getitem (PDict []) (KInt (rpc_chain_id E)));
      step_run; [|now rewrite <- !app_assoc].
    destruct (getitem (PDict []) (KInt 11155111));
      step_run; [|now rewrite <- !app_assoc].
    rewrite <- !app_assoc.
    now destruct (relayer_set_peer E a 4294967294 a0).
Qed.

Lemma set_peer_calls_app (l l' : list event) :
  set_peer_calls (l ++ l') = set_peer_calls l ++ set_peer_calls l'.
Proof. apply filter_app. Qed.

(** [connect_and_deploy] when nothing fails. *)
Lemma connect_and_deploy_returns (E : environment) (st : state)
      (guard_bytes : list byte) (createX_abi endpoint address : string)
      (d : pydict) :
  rpc_reachable E = true ->
  fromhex (str_drop 2 (eoa E) ++ "00")%string = Some guard_bytes ->
  createX_json (fs st) = Some createX_abi ->
  table_get (rpc_chain_id E) lz_endpoints = Some endpoint ->
  createX_deployCreate3 E (guard_bytes ++ bytes_view E st)
    (bytecode E ++ abi_encode E endpoint 500000) = Some address ->
  loaded (fs st) = PDict d ->
  connect_and_deploy E st =
  (Returned (rpc_chain_id E),
   mkState
     (with_yaml
        (Yaml.safe_dump (dict_set (KInt (rpc_chain_id E)) address d))
        (with_abi (abi_json E ++ String Json.newline "")%string (fs st)))
     (trace st ++
        [SetNetworkEnv (WEB3_PROVIDER_URL E); AddAccount; LoadPartial;
         DeployCreate3 (guard_bytes ++ bytes_view E st)
           (bytecode E ++ abi_encode E endpoint 500000);
         LoggingInfo ("Gas relayer deployed at " ++ address
                        ++ " on chain: " ++ str_of_int (rpc_chain_id E))%string;
         At address])
     (drawn st + 11)).
Proof.
  intros Hrpc Hhex Habi Hend Hdep Hload.
  unfold loaded in Hload. unfold bytes_view in *. unfold_run.
  rewrite Hrpc, Hhex. cbn [fs trace drawn]. rewrite Habi.
  unfold subscript. rewrite Hend. cbn [fs trace drawn]. rewrite Hdep.
  cbn [fs trace drawn with_abi deployments_yaml].
  destruct (deployments_yaml (fs st)) as [doc|].
  - rewrite Hload. cbn [setitem fs trace drawn]. now rewrite <- !app_assoc.
  - injection Hload as <-. cbn [setitem fs trace drawn].
    now rewrite <- !app_assoc.
Qed.

(** Whatever happens, [connect_and_deploy] returns the chain ID if it
    returns. *)
Lemma connect_and_deploy_value (E : environment) (st st' : state) (c : Z) :
  connect_and_deploy E st = (Returned c, st') -> c = rpc_chain_id E.
Proof.
  unfold_run. unfold subscript, setitem. split_run; intro H;
    try discriminate; now injection H.
Qed.

Lemma connect_and_deploy_json (E : environment) (st : state) :
  deployments_json (fs (snd (connect_and_deploy E st)))
  = deployments_json (fs st).
Proof. unfold_run. split_run; reflexivity. Qed.

Lemma connect_and_deploy_set_peer_calls (E : environment) (st : state) :
  set_peer_calls (trace (snd (connect_and_deploy E st)))
  = set_peer_calls (trace st).
Proof.
  unfold_run. split_run; cbn [snd trace];
    rewrite ?set_peer_calls_app; simpl; now rewrite ?app_nil_r.
Qed.

Lemma loaded_NoDup (f : files) (d : pydict) :
  loaded f = PDict d -> NoDup (keys d).
Proof.
  unfold loaded. destruct (deployments_yaml f) as [[|entries]|]; simpl;
    intro H; try discriminate; injection H as <-.
  - apply NoDup_keys_dict_of_items.
  - constructor.
Qed.

Lemma recorded_loaded (f : files) (k : pykey) (d : pydict) :
  loaded f = PDict d -> deployments_yaml f <> None ->
  recorded f k = dict_get k d.
Proof.
  unfold loaded, recorded. destruct (deployments_yaml f) as [doc|];
    [|congruence].
  now intros -> _.
Qed.

(** The deployments file after a dump, read back. *)
Lemma recorded_with_yaml (f : files) (d : pydict) (k : pykey) :
  NoDup (keys d) ->
  recorded (with_yaml (Yaml.safe_dump d) f) k = dict_get k d.
Proof.
  intro Hnd. unfold recorded, with_yaml. cbn [deployments_yaml].
  rewrite safe_load_safe_dump by exact Hnd.
  now apply dict_get_sorted_items.
Qed.

(** [connect_and_deploy], outcome by outcome. *)
Lemma connect_and_deploy_run (E : environment) (st : state) :
  connect_and_deploy E st =
  let t1 := trace st ++ [SetNetworkEnv (WEB3_PROVIDER_URL E)] in
  let n := (drawn st + 11)%nat in
  if rpc_reachable E then
    match fromhex (str_drop 2 (eoa E) ++ "00")%string with
    | None => (Raised ValueError, mkState (fs st) (t1 ++ [AddAccount]) (drawn st))
    | Some guard_bytes =>
        let salt := guard_bytes ++ bytes_view E st in
        match createX_json (fs st) with
        | None =>
            (Raised FileNotFoundError, mkState (fs st) (t1 ++ [AddAccount]) n)
        | Some _ =>
            match table_get (rpc_chain_id E) lz_endpoints with
            | None =>
                (Raised (KeyError (KInt (rpc_chain_id E))),
                 mkState (fs st) (t1 ++ [AddAccount; LoadPartial]) n)
            | Some endpoint =>
                let code := bytecode E ++ abi_encode E endpoint 500000 in
                match createX_deployCreate3 E salt code with
                | None =>
                    (Raised BoaError,
                     mkState (fs st)
                       (t1 ++ [AddAccount; LoadPartial;
                               DeployCreate3 salt code]) n)
                | Some address =>
                    let t2 :=
                      t1 ++ [AddAccount; LoadPartial; DeployCreate3 salt code;
                             LoggingInfo
                               ("Gas relayer deployed at " ++ address
                                  ++ " on chain: "
                                  ++ str_of_int (rpc_chain_id E))%string;
                             At address] in
                    let f2 :=
                      with_abi (abi_json E ++ String Json.newline "")%string
                               (fs st) in
                    match loaded (fs st) with
                    | PNone => (Raised TypeError, mkState f2 t2 n)
                    | PDict d =>
                        (Returned (rpc_chain_id E),
                         mkState
                           (with_yaml
                              (Yaml.safe_dump
                                 (dict_set (KInt (rpc_chain_id E)) address d))
                              f2) t2 n)
                    end
                end
            end
        end
    end
  else (Raised ConnectionError, mkState (fs st) t1 (drawn st)).
Proof.
  unfold loaded, bytes_view. unfold_run. unfold subscript.
  destruct (rpc_reachable E); [|reflexivity]. step_run.
  destruct (fromhex _); step_run; [|reflexivity].
  destruct (createX_json (fs st)); step_run; [|reflexivity].
  destruct (table_get _ _); step_run; [|now rewrite <- !app_assoc].
  destruct (createX_deployCreate3 _ _ _); step_run;
    [|now rewrite <- !app_assoc].
  cbn [with_abi deployments_yaml].
  destruct (deployments_yaml (fs st)) as [doc|]; step_run.
  - destruct (Yaml.safe_load doc); cbn [setitem]; step_run;
      now rewrite <- !app_assoc.
  - cbn [setitem]. step_run. now rewrite <- !app_assoc.
Qed.

Lemma connections_app (l l' : list event) :
  connections (l ++ l') = (connections l + connections l')%nat.
Proof. unfold connections. now rewrite filter_app, length_app. Qed.

(** [connect_and_deploy] returned: what held before and what holds after. *)
Lemma connect_and_deploy_inv (E : environment) (st st' : state) (c : Z) :
  connect_and_deploy E st = (Returned c, st') ->
  exists (address : string) (d : pydict),
    rpc_reachable E = true
    /\ loaded (fs st) = PDict d
    /\ fs st' = with_yaml
                  (Yaml.safe_dump (dict_set (KInt (rpc_chain_id E)) address d))
                  (with_abi (abi_json E ++ String Json.newline "")%string
                            (fs st))
    /\ connections (trace st') = S (connections (trace st)).
Proof.
  rewrite connect_and_deploy_run. cbv zeta.
  destruct (rpc_reachable E); [|discriminate].
  destruct (fromhex _); [|discriminate].
  destruct (createX_json (fs st)); [|discriminate].
  destruct (table_get _ _); [|discriminate].
  destruct (createX_deployCreate3 _ _ _) as [address|]; [|discriminate].
  destruct (loaded (fs st)) as [|d]; [discriminate|].
  intro H. injection H as _ <-. exists address, d.
  cbn [fs trace]. repeat split.
  rewrite !connections_app. unfold connections. simpl. lia.
Qed.

(** Entries of other chains are what they were, whatever the run does. *)
Lemma connect_and_deploy_frame (E : environment) (st : state)
      (entries : list (pykey * string)) (k : pykey) :
  deployments_yaml (fs st) = Some (Yaml.Mapping entries) ->
  k <> KInt (rpc_chain_id E) ->
  recorded (fs (snd (connect_and_deploy E st))) k = recorded (fs st) k.
Proof.
  intros Hy Hk.
  destruct (connect_and_deploy E st) as [[c|e] st'] eqn:Hrun.
  - apply connect_and_deploy_inv in Hrun.
    destruct Hrun as (address & d & _ & Hload & Hfs & _).
    cbn [snd]. rewrite Hfs.
    rewrite recorded_with_yaml
      by (apply NoDup_keys_dict_set; eapply loaded_NoDup; eassumption).
    rewrite dict_get_set_other by exact Hk.
    symmetry. apply recorded_loaded; [exact Hload | congruence].
  - cbn [snd]. revert Hrun. rewrite connect_and_deploy_run. cbv zeta.
    unfold loaded. rewrite Hy. cbn [Yaml.safe_load].
    destruct (rpc_reachable E);
      [|intro H; injection H as _ <-; reflexivity].
    destruct (fromhex _); [|intro H; injection H as _ <-; reflexivity].
    destruct (createX_json (fs st));
      [|intro H; injection H as _ <-; reflexivity].
    destruct (table_get _ _); [|intro H; injection H as _ <-; reflexivity].
    destruct (createX_deployCreate3 _ _ _);
      [discriminate | intro H; injection H as _ <-; reflexivity].
Qed.

Lemma deploy_unfold (E : environment) (st : state) :
  deploy E st =
  match connect_and_deploy E st with
  | (Returned c, st') =>
      if negb (Z.eqb c 11155111) then set_peer E st' else (Returned tt, st')
  | (Raised e, st') => (Raised e, st')
  end.
Proof.
  unfold deploy, bind.
  destruct (connect_and_deploy E st) as [[c|e] st']; [|reflexivity].
  now destruct (negb (Z.eqb c 11155111)).
Qed.

Lemma deploy_fs (E : environment) (st : state) :
  fs (snd (deploy E st)) = fs (snd (connect_and_deploy E st)).
Proof.
  rewrite deploy_unfold.
  destruct (connect_and_deploy E st) as [[c|e] st']; [|reflexivity].
  destruct (negb (Z.eqb c 11155111)); [|reflexivity].
  apply set_peer_fs.
Qed.

Lemma deploy_json (E : environment) (st : state) :
  deployments_json (fs (snd (deploy E st))) = deployments_json (fs st).
Proof. rewrite deploy_fs. apply connect_and_deploy_json. Qed.

(** ** Hexadecimal text and [bytes.fromhex] *)

Lemma hex_pair (b : byte) (u1 u2 : bool) :
  let n := Byte.to_N b in
  is_ascii_space (hex_char u1 (n / 16)) = false
  /\ hexval (hex_char u1 (n / 16)) = Some (n / 16)%N
  /\ hexval (hex_char u2 (n mod 16)) = Some (n mod 16)%N
  /\ byte_of_nibbles (n / 16) (n mod 16) = b.
Proof. destruct b, u1, u2; vm_compute; repeat split. Qed.

Lemma fromhex_hex_text (bs : list byte) (upper : nat -> bool) (i : nat)
      (s : string) :
  fromhex (hex_text upper i bs ++ s)%string
  = option_map (app bs) (fromhex s).
Proof.
  revert i. induction bs as [|b bs IH]; intro i.
  - simpl. now destruct (fromhex s).
  - destruct (hex_pair b (upper i) (upper (S i))) as (Hsp & Hhi & Hlo & Hb).
    cbn [hex_text String.append fromhex].
    rewrite Hsp, Hhi, Hlo, IH, Hb. now destruct (fromhex s).
Qed.

(** The guard of the salt: the address, then the flag byte. *)
Lemma fromhex_guard (bs : list byte) (upper : nat -> bool) :
  fromhex (str_drop 2 (address_text upper bs) ++ "00")%string
  = Some (bs ++ [x00]).
Proof.
  unfold address_text. cbn [String.append str_drop].
  now rewrite fromhex_hex_text.
Qed.

(** The factory is called at most once in a run, with the salt of the run. *)
Lemma deploy_salt (E : environment) (f : files) (guard_bytes : list byte)
      (salt code : list byte) :
  fromhex (str_drop 2 (eoa E) ++ "00")%string = Some guard_bytes ->
  In (DeployCreate3 salt code) (trace (snd (deploy E (start f)))) ->
  salt = guard_bytes ++ bytes_view E (start f).
Proof.
  intros Hhex. rewrite deploy_unfold, connect_and_deploy_run. cbv zeta.
  rewrite Hhex. cbn [start fs trace drawn app].
  destruct (rpc_reachable E); [|simpl; intuition discriminate].
  destruct (createX_json f); [|simpl; intuition discriminate].
  destruct (table_get _ _); [|simpl; intuition discriminate].
  destruct (createX_deployCreate3 _ _ _) as [address|];
    [|simpl; intuition (try discriminate); congruence].
  destruct (loaded f) as [|d];
    [simpl; intuition (try discriminate); congruence|].
  destruct (negb _);
    [|simpl; intuition (try discriminate); congruence].
  rewrite set_peer_run. cbv zeta. cbn [fs trace drawn].
  destruct (rpc_reachable E);
    [|simpl; intuition (try discriminate); congruence].
  destruct (getitem _ _);
    [|simpl; intuition (try discriminate); congruence].
  destruct (getitem _ _);
    simpl; intuition (try discriminate); congruence.
Qed.

(** ** What [set_peer] reads and sends *)

Lemma getitem_loaded (f : files) (k : pykey) (v : string) :
  getitem (loaded f) k = Returned v <-> recorded f k = Some v.
Proof.
  unfold loaded, recorded, getitem.
  destruct (deployments_yaml f) as [doc|].
  - destruct (Yaml.safe_load doc) as [|d]; [split; discriminate|].
    destruct (dict_get k d); split; congruence.
  - simpl. split; discriminate.
Qed.

Lemma getitem_loaded_missing (f : files) (k : pykey) :
  deployments_yaml f <> Some Yaml.Null ->
  recorded f k = None ->
  getitem (loaded f) k = Raised (KeyError k).
Proof.
  unfold loaded, recorded, getitem.
  destruct (deployments_yaml f) as [[|entries]|]; simpl;
    [congruence | | reflexivity].
  intros _ ->. reflexivity.
Qed.

Lemma set_peer_connections (E : environment) (st : state) :
  connections (trace (snd (set_peer E st))) = S (connections (trace st)).
Proof.
  rewrite set_peer_run. cbv zeta.
  destruct (rpc_reachable E); [|cbn [snd trace]];
    [destruct (getitem _ _); [destruct (getitem _ _)|]; cbn [snd trace]|];
    rewrite !connections_app; unfold connections; simpl; lia.
Qed.

Lemma connect_and_deploy_connections (E : environment) (st : state) :
  connections (trace (snd (connect_and_deploy E st)))
  = S (connections (trace st)).
Proof.
  rewrite connect_and_deploy_run. cbv zeta.
  destruct (rpc_reachable E);
    [destruct (fromhex _);
     [destruct (createX_json (fs st));
      [destruct (table_get _ _);
       [destruct (createX_deployCreate3 _ _ _);
        [destruct (loaded (fs st))|]|]|]|]|];
    cbn [snd trace]; rewrite !connections_app; unfold connections;
    simpl; lia.
Qed.

(** With both chains on record and the chain reachable, [set_peer] sends one
    registration. *)
Lemma set_peer_registers (E : environment) (st : state) (a h : string) :
  rpc_reachable E = true ->
  recorded (fs st) (KInt (rpc_chain_id E)) = Some a ->
  recorded (fs st) (KInt 11155111) = Some h ->
  trace (snd (set_peer E st))
  = trace st ++ [SetNetworkEnv (WEB3_PROVIDER_URL E); AddAccount; LoadPartial;
                 At a; SetPeer a 4294967294 h].
Proof.
  intros Hrpc Ha Hh. apply getitem_loaded in Ha, Hh.
  rewrite set_peer_run. cbv zeta. rewrite Hrpc, Ha, Hh. cbn [snd trace].
  now rewrite <- app_assoc.
Qed.

(** What [set_peer] adds to the calls made, in any run. *)
Lemma set_peer_sends (E : environment) (st : state) :
  exists new : list event,
    trace (snd (set_peer E st)) = trace st ++ new
    /\ (set_peer_calls new = []
        \/ exists a h,
             recorded (fs st) (KInt (rpc_chain_id E)) = Some a
             /\ recorded (fs st) (KInt 11155111) = Some h
             /\ set_peer_calls new = [SetPeer a 4294967294 h]).
Proof.
  rewrite set_peer_run. cbv zeta.
  destruct (rpc_reachable E).
  - destruct (getitem _ (KInt (rpc_chain_id E))) as [a|e] eqn:Ha.
    + destruct (getitem _ (KInt 11155111)) as [h|e] eqn:Hh.
      * apply getitem_loaded in Ha, Hh. cbn [snd trace].
        eexists. rewrite <- app_assoc. split; [reflexivity|].
        right. exists a, h. repeat split; assumption.
      * cbn [snd trace]. eexists. rewrite <- app_assoc.
        split; [reflexivity|]. now left.
    + cbn [snd trace]. eexists. rewrite <- app_assoc.
      split; [reflexivity|]. now left.
  - cbn [snd trace]. eexists. split; [reflexivity|]. now left.
Qed.

Lemma recorded_Some_mapping (f : files) (k : pykey) (v : string) :
  recorded f k = Some v ->
  exists entries, deployments_yaml f = Some (Yaml.Mapping entries).
Proof.
  unfold recorded. destruct (deployments_yaml f) as [[|entries]|];
    simpl; try discriminate.
  intros _. now exists entries.
Qed.

(** The calls of a whole [deploy] run on a chain that is not the home
    chain, once the contract is deployed. *)
Lemma deploy_then_set_peer (E : environment) (st st' : state) (c : Z) :
  rpc_chain_id E <> 11155111 ->
  connect_and_deploy E st = (Returned c, st') ->
  deploy E st = set_peer E st'.
Proof.
  intros Hc Hrun. rewrite deploy_unfold, Hrun.
  apply connect_and_deploy_value in Hrun. subst c.
  now rewrite (proj2 (Z.eqb_neq _ _) Hc).
Qed.

Lemma deploy_on_home (E : environment) (st : state) :
  rpc_chain_id E = 11155111 ->
  snd (deploy E st) = snd (connect_and_deploy E st).
Proof.
  intro Hc. rewrite deploy_unfold.
  destruct (connect_and_deploy E st) as [[c|e] st'] eqn:Hrun; [|reflexivity].
  apply connect_and_deploy_value in Hrun. subst c.
  now rewrite Hc.
Qed.

Lemma deploy_calls (E : environment) (f : files) :
  set_peer_calls (trace (snd (deploy E (start f)))) = []
  \/ exists a h, set_peer_calls (trace (snd (deploy E (start f))))
                 = [SetPeer a 4294967294 h].
Proof.
  rewrite deploy_unfold.
  pose proof (connect_and_deploy_set_peer_calls E (start f)) as Hnone.
  destruct (connect_and_deploy E (start f)) as [[c|e] st'];
    cbn [snd start trace set_peer_calls filter] in Hnone; [|now left].
  destruct (negb _); [|now left].
  destruct (set_peer_sends E st') as (new & -> & [Hn | (a & h & _ & _ & Hn)]);
    rewrite set_peer_calls_app, Hnone, Hn; [now left|].
  right. now exists a, h.
Qed.

Lemma in_set_peer_calls (tr : list event) (a : string) (eid : Z) (h : string) :
  In (SetPeer a eid h) tr -> In (SetPeer a eid h) (set_peer_calls tr).
Proof. intro H. apply filter_In. now split. Qed.

Lemma deploy_trace_extends (E : environment) (st : state) :
  exists new : list event,
    trace (snd (deploy E st)) = trace (snd (connect_and_deploy E st)) ++ new.
Proof.
  rewrite deploy_unfold.
  destruct (connect_and_deploy E st) as [[c|e] st'];
    [|exists []; now rewrite app_nil_r].
  destruct (negb _); [|exists []; now rewrite app_nil_r].
  destruct (set_peer_sends E st') as (new & Htr & _). now exists new.
Qed.

(** The factory is called once the chain is reachable, the deployer's
    address reads as bytes, [createX.json] is there and the chain has an
    endpoint. *)
Lemma connect_and_deploy_calls_factory (E : environment) (st : state)
      (guard_bytes : list byte) (abi endpoint : string) :
  rpc_reachable E = true ->
  fromhex (str_drop 2 (eoa E) ++ "00")%string = Some guard_bytes ->
  createX_json (fs st) = Some abi ->
  table_get (rpc_chain_id E) lz_endpoints = Some endpoint ->
  In (DeployCreate3 (guard_bytes ++ bytes_view E st)
        (bytecode E ++ abi_encode E endpoint 500000))
     (trace (snd (connect_and_deploy E st))).
Proof.
  intros Hrpc Hhex Habi Hend.
  rewrite connect_and_deploy_run. cbv zeta. rewrite Hrpc, Hhex, Habi, Hend.
  destruct (createX_deployCreate3 _ _ _);
    [destruct (loaded (fs st))|]; cbn [snd trace];
    apply in_or_app; right; simpl; tauto.
Qed.

(** * The claims *)

(** C1, as amended.  [update_config(m)] followed by [load_config()] returns
    the entries of [m] in their order, each under the decimal text of its
    chain ID instead of the chain ID: the keys of a JSON object are strings.
    A mapping whose keys are strings already comes back as it is, and so does
    the empty mapping. *)
Theorem C1_round_trip_keys_as_text (f : files) :
  (forall m : list (Z * string),
      NoDup (map fst m) ->
      ChainMarketManager.load_config
        (ChainMarketManager.update_config (chain_dict m) f)
      = Returned
          (PDict (map (fun ca => (KStr (str_of_int (fst ca)), snd ca)) m)))
  /\ (forall d : pydict,
         NoDup (keys d) ->
         forallb Yaml.is_str (keys d) = true ->
         ChainMarketManager.load_config
           (ChainMarketManager.update_config d f)
         = Returned (PDict d))
  /\ ChainMarketManager.load_config
       (ChainMarketManager.update_config [] f)
     = Returned (PDict []).
Proof.
  split; [|split].
  - intros m Hnd. rewrite load_after_update, as_json_item_chain_dict.
    now rewrite dict_of_items_NoDup by now apply NoDup_keys_as_text.
  - intros d Hnd Hstr. rewrite load_after_update.
    rewrite as_json_item_str by exact Hstr.
    now rewrite dict_of_items_NoDup.
  - apply (load_after_update [] f).
Qed.

Lemma C1_round_trip_keys_as_text_witness :
  NoDup (map fst [(421614, sample_address); (11155111, sample_home_address)])
  /\ ChainMarketManager.load_config
       (ChainMarketManager.update_config
          (chain_dict [(421614, sample_address);
                       (11155111, sample_home_address)]) no_files)
     = Returned (PDict [(KStr "421614", sample_address);
                        (KStr "11155111", sample_home_address)]).
Proof.
  assert (Hnd : NoDup (map fst [(421614, sample_address);
                                (11155111, sample_home_address)])).
  { simpl. repeat constructor; simpl; intuition discriminate. }
  split; [exact Hnd|].
  exact (proj1 (C1_round_trip_keys_as_text no_files)
               [(421614, sample_address); (11155111, sample_home_address)]
               Hnd).
Defined.

(** C1 as stated fails: a mapping keyed by the chain ID 421614 comes back
    keyed by the text "421614", and the two dictionaries are not equal. *)
Lemma C1_counterexample :
  ChainMarketManager.load_config
    (ChainMarketManager.update_config
       (chain_dict [(421614, sample_address)]) no_files)
  = Returned (PDict [(KStr "421614", sample_address)])
  /\ ~ dict_eq [(KStr "421614", sample_address)]
               (chain_dict [(421614, sample_address)]).
Proof.
  split.
  - rewrite load_after_update. reflexivity.
  - intro H. specialize (H (KInt 421614)). discriminate H.
Qed.

(** C2, as amended.  With no [deployments.json], [load_config()] does not
    raise and returns [None]; it is [deploy.py], reading
    [deployments.yaml], that starts from the empty mapping when its file is
    missing. *)
Theorem C2_load_without_file (f : files) :
  (deployments_json f = None ->
   ChainMarketManager.load_config f = Returned PNone)
  /\ (deployments_yaml f = None ->
      forall st, fs st = f -> load_deployments st = (Returned (PDict []), st)).
Proof.
  split.
  - intro H. unfold ChainMarketManager.load_config. now rewrite H.
  - intros H st <-. unfold load_deployments, bind, get_files, ret.
    now rewrite H.
Qed.

Lemma C2_load_without_file_witness :
  deployments_json no_files = None
  /\ ChainMarketManager.load_config no_files = Returned PNone.
Proof.
  split; [reflexivity|].
  exact (proj1 (C2_load_without_file no_files) eq_refl).
Defined.

(** C2 as stated fails: on a first run [load_config()] returns [None], which
    is not the empty mapping. *)
Lemma C2_counterexample :
  ChainMarketManager.load_config no_files <> Returned (PDict []).
Proof. discriminate. Qed.

(** C3, as amended.  [update_config(mapping)] writes [deployments.json],
    with the mapping's text and a line feed, and leaves [deployments.yaml]
    as it was; a [deploy] run, once the contract is deployed, has written
    [deployments.yaml] with the loaded mapping and the new entry. *)
Theorem C3_each_save_writes_its_file :
  (forall (d : pydict) (f : files),
      deployments_json (ChainMarketManager.update_config d f)
      = Some (Json.dumps_indent4 d ++ String Json.newline "")%string
      /\ deployments_yaml (ChainMarketManager.update_config d f)
         = deployments_yaml f)
  /\ (forall (E : environment) (st st' : state) (c : Z),
         connect_and_deploy E st = (Returned c, st') ->
         exists (address : string) (d : pydict),
           loaded (fs st) = PDict d
           /\ deployments_yaml (fs (snd (deploy E st)))
              = Some (Yaml.safe_dump
                        (dict_set (KInt (rpc_chain_id E)) address d))).
Proof.
  split.
  - intros d f. split; reflexivity.
  - intros E st st' c Hrun. rewrite deploy_fs, Hrun.
    apply connect_and_deploy_inv in Hrun.
    destruct Hrun as (address & d & _ & Hload & Hfs & _).
    exists address, d. split; [exact Hload|].
    cbn [snd]. now rewrite Hfs.
Qed.

(** C3 as stated fails: after [update_config] there is no
    [deployments.yaml], and after a [deploy] run that deployed the contract
    there is no [deployments.json]. *)
Lemma C3_counterexample :
  deployments_yaml
    (ChainMarketManager.update_config
       (chain_dict [(421614, sample_address)]) no_files) = None
  /\ fst (deploy (sample_env 421614) (start sample_files)) = Returned tt
  /\ deployments_json
       (fs (snd (deploy (sample_env 421614) (start sample_files)))) = None.
Proof. split; [reflexivity|]. split; vm_compute; reflexivity. Qed.

Lemma C3_each_save_writes_its_file_witness :
  connect_and_deploy (sample_env 421614) (start sample_files)
  = (Returned 421614,
     snd (connect_and_deploy (sample_env 421614) (start sample_files)))
  /\ exists (address : string) (d : pydict),
       loaded (fs (start sample_files)) = PDict d
       /\ deployments_yaml
            (fs (snd (deploy (sample_env 421614) (start sample_files))))
          = Some (Yaml.safe_dump
                    (dict_set (KInt (rpc_chain_id (sample_env 421614)))
                              address d)).
Proof.
  assert (Hrun :
    connect_and_deploy (sample_env 421614) (start sample_files)
    = (Returned 421614,
       snd (connect_and_deploy (sample_env 421614) (start sample_files))))
    by (vm_compute; reflexivity).
  split; [exact Hrun|].
  exact (proj2 C3_each_save_writes_its_file _ _ _ _ Hrun).
Defined.

(** C4, as amended.  [LZ_EID] holds 1 for each of the two chains of
    [Network]; the endpoint identifier of every peer registration, from
    [set_peer] or from [deploy], is the literal 4294967294, which is not read
    from [LZ_EID]. *)
Theorem C4_registry_eid_and_call_eid :
  (forall n : Constants.Network,
      subscript Constants.LZ_EID (Constants.value n) = Returned 1)
  /\ (forall (E : environment) (f : files) (contract : string) (eid : Z)
             (peer : string),
         In (SetPeer contract eid peer) (trace (snd (set_peer E (start f)))) ->
         eid = 4294967294)
  /\ (forall (E : environment) (f : files) (contract : string) (eid : Z)
             (peer : string),
         In (SetPeer contract eid peer) (trace (snd (deploy E (start f)))) ->
         eid = 4294967294).
Proof.
  split; [|split].
  - intros []; reflexivity.
  - intros E f contract eid peer Hin.
    destruct (set_peer_sends E (start f))
      as (new & Htr & [Hn | (a & h & _ & _ & Hn)]);
      rewrite Htr in Hin; apply in_set_peer_calls in Hin;
      cbn [start trace app] in Hin; rewrite Hn in Hin; simpl in Hin.
    + contradiction.
    + destruct Hin as [Heq|[]]. now injection Heq.
  - intros E f contract eid peer Hin. apply in_set_peer_calls in Hin.
    destruct (deploy_calls E f) as [Hn | (a & h & Hn)];
      rewrite Hn in Hin; simpl in Hin.
    + contradiction.
    + destruct Hin as [Heq|[]]. now injection Heq.
Qed.

Lemma C4_registry_eid_and_call_eid_witness :
  In (SetPeer sample_address 4294967294 sample_home_address)
     (trace (snd (set_peer (sample_env 421614) (start sample_files))))
  /\ 4294967294 = 4294967294.
Proof.
  assert (Hin :
    In (SetPeer sample_address 4294967294 sample_home_address)
       (trace (snd (set_peer (sample_env 421614) (start sample_files)))))
    by (vm_compute; tauto).
  split; [exact Hin|].
  exact (proj1 (proj2 C4_registry_eid_and_call_eid) _ _ _ _ _ Hin).
Defined.

(** C4 as stated fails: the registration sent for the home chain carries
    4294967294, and the registry's value for the home chain is 1. *)
Lemma C4_counterexample :
  ~ (forall (contract : string) (eid : Z) (peer : string),
        In (SetPeer contract eid peer)
           (trace (snd (set_peer (sample_env 421614) (start sample_files)))) ->
        subscript Constants.LZ_EID 11155111 = Returned eid).
Proof.
  intro H.
  specialize (H sample_address 4294967294 sample_home_address).
  assert (Hin :
    In (SetPeer sample_address 4294967294 sample_home_address)
       (trace (snd (set_peer (sample_env 421614) (start sample_files)))))
    by (vm_compute; tauto).
  specialize (H Hin). discriminate H.
Qed.

(** C5.  A [deploy] run on chain 11155111 ends where its connect and deploy
    steps end and connects once: [set_peer] is not run.  A [deploy] run on
    any other chain whose connect and deploy steps return goes on as
    [set_peer] does from there, and connects a second time. *)
Theorem C5_set_peer_unless_home (E : environment) (f : files) :
  (rpc_chain_id E = 11155111 ->
   snd (deploy E (start f)) = snd (connect_and_deploy E (start f))
   /\ connections (trace (snd (deploy E (start f)))) = 1%nat
   /\ set_peer_calls (trace (snd (deploy E (start f)))) = [])
  /\ (rpc_chain_id E <> 11155111 ->
      forall (c : Z) (st' : state),
        connect_and_deploy E (start f) = (Returned c, st') ->
        deploy E (start f) = set_peer E st'
        /\ connections (trace (snd (deploy E (start f)))) = 2%nat).
Proof.
  split.
  - intro Hc. rewrite (deploy_on_home E (start f) Hc).
    split; [reflexivity|]. split.
    + now rewrite connect_and_deploy_connections.
    + now rewrite connect_and_deploy_set_peer_calls.
  - intros Hc c st' Hrun.
    rewrite (deploy_then_set_peer E (start f) st' c Hc Hrun).
    split; [reflexivity|]. rewrite set_peer_connections.
    pose proof (connect_and_deploy_connections E (start f)) as Hn.
    rewrite Hrun in Hn. cbn [snd] in Hn. now rewrite Hn.
Qed.

Lemma C5_set_peer_unless_home_witness :
  (rpc_chain_id (sample_env 11155111) = 11155111
   /\ connections
        (trace (snd (deploy (sample_env 11155111) (start sample_files))))
      = 1%nat)
  /\ (rpc_chain_id (sample_env 421614) <> 11155111
      /\ connect_and_deploy (sample_env 421614) (start sample_files)
         = (Returned 421614,
            snd (connect_and_deploy (sample_env 421614) (start sample_files)))
      /\ connections
           (trace (snd (deploy (sample_env 421614) (start sample_files))))
         = 2%nat).
Proof.
  assert (Hne : rpc_chain_id (sample_env 421614) <> 11155111)
    by discriminate.
  assert (Hrun :
    connect_and_deploy (sample_env 421614) (start sample_files)
    = (Returned 421614,
       snd (connect_and_deploy (sample_env 421614) (start sample_files))))
    by (vm_compute; reflexivity).
  split.
  - split; [reflexivity|].
    exact (proj1 (proj2 (proj1 (C5_set_peer_unless_home
                                  (sample_env 11155111) sample_files)
                               eq_refl))).
  - split; [exact Hne|]. split; [exact Hrun|].
    exact (proj2 (proj2 (C5_set_peer_unless_home
                           (sample_env 421614) sample_files)
                        Hne _ _ Hrun)).
Defined.

(** C6.  When the deployments read by [set_peer] hold no address for the
    chain it runs on, or none for the home chain, the run raises and sends no
    peer registration; with the chain reachable and the file missing or
    holding a mapping, what it raises is the [KeyError] of a missing chain
    ID, the failure the specification calls NotDeployed. *)
Theorem C6_set_peer_not_deployed (E : environment) (f : files) :
  recorded f (KInt (rpc_chain_id E)) = None
  \/ recorded f (KInt 11155111) = None ->
  set_peer_calls (trace (snd (set_peer E (start f)))) = []
  /\ (exists e, fst (set_peer E (start f)) = Raised e)
  /\ (rpc_reachable E = true ->
      deployments_yaml f <> Some Yaml.Null ->
      exists k,
        (k = KInt (rpc_chain_id E) \/ k = KInt 11155111)
        /\ recorded f k = None
        /\ fst (set_peer E (start f)) = Raised (KeyError k)).
Proof.
  intro Hmiss. rewrite set_peer_run. cbv zeta. cbn [start fs trace drawn].
  destruct (rpc_reachable E).
  - destruct (getitem (loaded f) (KInt (rpc_chain_id E))) as [a|e] eqn:Ha.
    + destruct (getitem (loaded f) (KInt 11155111)) as [h|e] eqn:Hh.
      * apply getitem_loaded in Ha, Hh.
        destruct Hmiss as [Hm|Hm]; congruence.
      * cbn [fst snd trace]. split; [reflexivity|].
        split; [now exists e|]. intros _ Hnull.
        assert (Hnone : recorded f (KInt 11155111) = None).
        { destruct (recorded f (KInt 11155111)) as [h|] eqn:Hr;
            [|reflexivity].
          apply getitem_loaded in Hr. congruence. }
        exists (KInt 11155111). split; [now right|]. split; [exact Hnone|].
        rewrite (getitem_loaded_missing f _ Hnull Hnone) in Hh.
        now injection Hh as <-.
    + cbn [fst snd trace]. split; [reflexivity|].
      split; [now exists e|]. intros _ Hnull.
      assert (Hnone : recorded f (KInt (rpc_chain_id E)) = None).
      { destruct (recorded f (KInt (rpc_chain_id E))) as [a|] eqn:Hr;
          [|reflexivity].
        apply getitem_loaded in Hr. congruence. }
      exists (KInt (rpc_chain_id E)). split; [now left|].
      split; [exact Hnone|].
      rewrite (getitem_loaded_missing f _ Hnull Hnone) in Ha.
      now injection Ha as <-.
  - cbn [fst snd trace]. split; [reflexivity|].
    split; [now exists ConnectionError|]. discriminate.
Qed.

Lemma C6_set_peer_not_deployed_witness :
  (recorded no_files (KInt (rpc_chain_id (sample_env 421614))) = None
   \/ recorded no_files (KInt 11155111) = None)
  /\ set_peer_calls
       (trace (snd (set_peer (sample_env 421614) (start no_files)))) = []
  /\ fst (set_peer (sample_env 421614) (start no_files))
     = Raised (KeyError (KInt 421614)).
Proof.
  assert (Hmiss :
    recorded no_files (KInt (rpc_chain_id (sample_env 421614))) = None
    \/ recorded no_files (KInt 11155111) = None) by (left; reflexivity).
  split; [exact Hmiss|]. split.
  - exact (proj1 (C6_set_peer_not_deployed (sample_env 421614) no_files
                    Hmiss)).
  - reflexivity.
Defined.

(** C7.  In a [deploy] run of a deployer whose address is the 20 bytes
    [addr], the salt handed to the factory is [addr], the byte 0x00 and the
    eleven bytes drawn from [os.urandom], 32 bytes in all; the factory is
    called with it as soon as the chain is reachable, [createX.json] is there
    and the chain has an endpoint; and two runs of the same deployer that
    draw different bytes hand over different salts. *)
Theorem C7_salt_layout (addr : list byte) (upper : nat -> bool) :
  List.length addr = 20%nat ->
  (forall (E : environment) (f : files) (salt code : list byte),
      eoa E = address_text upper addr ->
      In (DeployCreate3 salt code) (trace (snd (deploy E (start f)))) ->
      salt = addr ++ [x00] ++ bytes_view E (start f)
      /\ List.length salt = 32%nat)
  /\ (forall (E : environment) (f : files) (abi endpoint : string),
         eoa E = address_text upper addr ->
         rpc_reachable E = true ->
         createX_json f = Some abi ->
         table_get (rpc_chain_id E) lz_endpoints = Some endpoint ->
         In (DeployCreate3 (addr ++ [x00] ++ bytes_view E (start f))
               (bytecode E ++ abi_encode E endpoint 500000))
            (trace (snd (deploy E (start f)))))
  /\ (forall (E1 E2 : environment) (f1 f2 : files)
             (salt1 code1 salt2 code2 : list byte),
         eoa E1 = address_text upper addr ->
         eoa E2 = address_text upper addr ->
         bytes_view E1 (start f1) <> bytes_view E2 (start f2) ->
         In (DeployCreate3 salt1 code1) (trace (snd (deploy E1 (start f1)))) ->
         In (DeployCreate3 salt2 code2) (trace (snd (deploy E2 (start f2)))) ->
         salt1 <> salt2).
Proof.
  intro Hlen.
  assert (Hsalt : forall E f salt code,
            eoa E = address_text upper addr ->
            In (DeployCreate3 salt code) (trace (snd (deploy E (start f)))) ->
            salt = addr ++ [x00] ++ bytes_view E (start f)).
  { intros E f salt code Heoa Hin.
    rewrite (deploy_salt E f (addr ++ [x00]) salt code); [| |exact Hin].
    - now rewrite <- app_assoc.
    - rewrite Heoa. apply fromhex_guard. }
  split; [|split].
  - intros E f salt code Heoa Hin.
    rewrite (Hsalt E f salt code Heoa Hin). split; [reflexivity|].
    unfold bytes_view. rewrite !length_app, length_map, length_seq, Hlen.
    reflexivity.
  - intros E f abi endpoint Heoa Hrpc Habi Hend.
    destruct (deploy_trace_extends E (start f)) as (new & ->).
    apply in_or_app. left.
    replace (addr ++ [x00] ++ bytes_view E (start f))
      with ((addr ++ [x00]) ++ bytes_view E (start f))
      by now rewrite <- app_assoc.
    apply (connect_and_deploy_calls_factory E (start f) _ abi endpoint);
      try assumption.
    rewrite Heoa. apply fromhex_guard.
  - intros E1 E2 f1 f2 salt1 code1 salt2 code2 He1 He2 Hne Hin1 Hin2 Heq.
    rewrite (Hsalt E1 f1 salt1 code1 He1 Hin1) in Heq.
    rewrite (Hsalt E2 f2 salt2 code2 He2 Hin2) in Heq.
    apply app_inv_head in Heq. apply app_inv_head in Heq. contradiction.
Qed.

Lemma C7_salt_layout_witness :
  List.length sample_deployer = 20%nat
  /\ eoa (sample_env 421614) = address_text (fun i => Nat.even i) sample_deployer
  /\ In (DeployCreate3 (sample_deployer ++ [x00] ++ repeat x2a 11) [x60; x80])
        (trace (snd (deploy (sample_env 421614) (start sample_files))))
  /\ List.length (sample_deployer ++ [x00] ++ repeat x2a 11) = 32%nat
  /\ sample_deployer ++ [x00] ++ repeat x2a 11
     <> sample_deployer ++ [x00] ++ repeat x2b 11.
Proof.
  assert (Hlen : List.length sample_deployer = 20%nat) by reflexivity.
  assert (Heoa : forall b c,
            eoa (sample_env_drawing b c)
            = address_text (fun i => Nat.even i) sample_deployer)
    by reflexivity.
  assert (Hin1 :
    In (DeployCreate3 (sample_deployer ++ [x00] ++ repeat x2a 11) [x60; x80])
       (trace (snd (deploy (sample_env 421614) (start sample_files)))))
    by (vm_compute; tauto).
  assert (Hin2 :
    In (DeployCreate3 (sample_deployer ++ [x00] ++ repeat x2b 11) [x60; x80])
       (trace (snd (deploy (sample_env_drawing x2b 421614)
                           (start sample_files)))))
    by (vm_compute; tauto).
  assert (Hne :
    bytes_view (sample_env 421614) (start sample_files)
    <> bytes_view (sample_env_drawing x2b 421614) (start sample_files))
    by discriminate.
  split; [exact Hlen|]. split; [apply Heoa|]. split; [exact Hin1|]. split.
  - exact (proj2 (proj1 (C7_salt_layout sample_deployer _ Hlen)
                        (sample_env 421614) sample_files _ _
                        (Heoa _ _) Hin1)).
  - exact (proj2 (proj2 (C7_salt_layout sample_deployer _ Hlen))
                 (sample_env 421614) (sample_env_drawing x2b 421614)
                 sample_files sample_files _ _ _ _
                 (Heoa _ _) (Heoa _ _) Hne Hin1 Hin2).
Defined.

(** C8.  With the chain reachable and both the chain's own address and the
    home chain's address on record, [set_peer] sends exactly one peer
    registration, with endpoint ID 4294967294 and the home chain's recorded
    address; so does a [deploy] run on a chain other than the home chain once
    the contract is deployed, the registration going to the address it just
    recorded. *)
Theorem C8_one_registration_with_home_on_record :
  (forall (E : environment) (st : state) (a h : string),
      rpc_reachable E = true ->
      recorded (fs st) (KInt (rpc_chain_id E)) = Some a ->
      recorded (fs st) (KInt 11155111) = Some h ->
      set_peer_calls (trace (snd (set_peer E st)))
      = set_peer_calls (trace st) ++ [SetPeer a 4294967294 h])
  /\ (forall (E : environment) (f : files) (c : Z) (st' : state) (h : string),
         rpc_chain_id E <> 11155111 ->
         connect_and_deploy E (start f) = (Returned c, st') ->
         recorded f (KInt 11155111) = Some h ->
         exists a : string,
           recorded (fs st') (KInt (rpc_chain_id E)) = Some a
           /\ set_peer_calls (trace (snd (deploy E (start f))))
              = [SetPeer a 4294967294 h]).
Proof.
  assert (Hset : forall E st a h,
            rpc_reachable E = true ->
            recorded (fs st) (KInt (rpc_chain_id E)) = Some a ->
            recorded (fs st) (KInt 11155111) = Some h ->
            set_peer_calls (trace (snd (set_peer E st)))
            = set_peer_calls (trace st) ++ [SetPeer a 4294967294 h]).
  { intros E st a h Hrpc Ha Hh.
    rewrite (set_peer_registers E st a h Hrpc Ha Hh).
    now rewrite set_peer_calls_app. }
  split; [exact Hset|].
  intros E f c st' h Hc Hrun Hh.
  pose proof (connect_and_deploy_set_peer_calls E (start f)) as Hnone.
  pose proof (connect_and_deploy_frame E (start f)) as Hframe.
  rewrite (deploy_then_set_peer E (start f) st' c Hc Hrun).
  rewrite Hrun in Hnone, Hframe. cbn [snd start trace fs] in Hnone, Hframe.
  destruct (connect_and_deploy_inv E (start f) st' c Hrun)
    as (address & d & Hrpc & Hload & Hfs & _).
  cbn [start fs] in Hload, Hfs.
  assert (Ha : recorded (fs st') (KInt (rpc_chain_id E)) = Some address).
  { rewrite Hfs, recorded_with_yaml
      by (apply NoDup_keys_dict_set; eapply loaded_NoDup; eassumption).
    apply dict_get_set_same. }
  assert (Hh' : recorded (fs st') (KInt 11155111) = Some h).
  { destruct (recorded_Some_mapping f _ _ Hh) as (entries & Hy).
    rewrite (Hframe entries (KInt 11155111) Hy); [exact Hh|].
    intro Heq. injection Heq as Heq. now apply Hc. }
  exists address. split; [exact Ha|].
  rewrite (Hset E st' address h Hrpc Ha Hh'), Hnone. reflexivity.
Qed.

Lemma C8_one_registration_with_home_on_record_witness :
  rpc_chain_id (sample_env 421614) <> 11155111
  /\ connect_and_deploy (sample_env 421614) (start sample_files)
     = (Returned 421614,
        snd (connect_and_deploy (sample_env 421614) (start sample_files)))
  /\ recorded sample_files (KInt 11155111) = Some sample_home_address
  /\ exists a : string,
       recorded
         (fs (snd (connect_and_deploy (sample_env 421614)
                                      (start sample_files))))
         (KInt (rpc_chain_id (sample_env 421614))) = Some a
       /\ set_peer_calls
            (trace (snd (deploy (sample_env 421614) (start sample_files))))
          = [SetPeer a 4294967294 sample_home_address].
Proof.
  assert (Hne : rpc_chain_id (sample_env 421614) <> 11155111)
    by discriminate.
  assert (Hrun :
    connect_and_deploy (sample_env 421614) (start sample_files)
    = (Returned 421614,
       snd (connect_and_deploy (sample_env 421614) (start sample_files))))
    by (vm_compute; reflexivity).
  assert (Hh : recorded sample_files (KInt 11155111)
               = Some sample_home_address) by reflexivity.
  split; [exact Hne|]. split; [exact Hrun|]. split; [exact Hh|].
  exact (proj2 C8_one_registration_with_home_on_record
               (sample_env 421614) sample_files _ _ _ Hne Hrun Hh).
Defined.

(** C9.  For a chain ID of [Network], [lz_endpoints[c]] and [LZ_EID[c]]
    both return a value and raise nothing; for every other chain ID both
    raise the [KeyError] of that chain ID, the failure the specification
    calls UnsupportedChain. *)
Theorem C9_registry_lookups (c : Z) :
  (supported c ->
   (exists a, subscript lz_endpoints c = Returned a)
   /\ (exists e, subscript Constants.LZ_EID c = Returned e))
  /\ (~ supported c ->
      subscript lz_endpoints c = Raised (KeyError (KInt c))
      /\ subscript Constants.LZ_EID c = Raised (KeyError (KInt c))).
Proof.
  split.
  - intros [[] <-]; split; eexists; reflexivity.
  - intro Hn.
    assert (H1 : c <> 421614)
      by (intro; apply Hn; now exists Constants.ArbitrumSepolia).
    assert (H2 : c <> 11155111)
      by (intro; apply Hn; now exists Constants.Sepolia).
    apply Z.eqb_neq in H1, H2.
    unfold subscript, lz_endpoints, Constants.LZ_EID. cbn [table_get].
    cbn [Constants.value]. now rewrite H1, H2.
Qed.

Lemma C9_registry_lookups_witness :
  (supported 421614
   /\ (exists a, subscript lz_endpoints 421614 = Returned a)
   /\ (exists e, subscript Constants.LZ_EID 421614 = Returned e))
  /\ (~ supported 1
      /\ subscript lz_endpoints 1 = Raised (KeyError (KInt 1))
      /\ subscript Constants.LZ_EID 1 = Raised (KeyError (KInt 1))).
Proof.
  assert (Hs : supported 421614)
    by (exists Constants.ArbitrumSepolia; reflexivity).
  assert (Hn : ~ supported 1) by (intros [[] H]; discriminate H).
  split.
  - split; [exact Hs|]. exact (proj1 (C9_registry_lookups 421614) Hs).
  - split; [exact Hn|]. exact (proj2 (C9_registry_lookups 1) Hn).
Defined.

(** C10.  When [deployments.yaml] exists and holds a mapping, a [deploy]
    run on chain [c] leaves the entry of every key other than [c] as it was,
    however the run ends; and once the contract is deployed the file holds
    an entry for [c]. *)
Theorem C10_deploy_keeps_other_entries (E : environment) (f : files)
        (entries : list (pykey * string)) :
  deployments_yaml f = Some (Yaml.Mapping entries) ->
  (forall k : pykey,
      k <> KInt (rpc_chain_id E) ->
      recorded (fs (snd (deploy E (start f)))) k = recorded f k)
  /\ (forall (c : Z) (st' : state),
         connect_and_deploy E (start f) = (Returned c, st') ->
         exists address : string,
           recorded (fs (snd (deploy E (start f)))) (KInt (rpc_chain_id E))
           = Some address).
Proof.
  intro Hy. split.
  - intros k Hk. rewrite deploy_fs.
    now apply (connect_and_deploy_frame E (start f) entries k).
  - intros c st' Hrun. rewrite deploy_fs, Hrun. cbn [snd].
    destruct (connect_and_deploy_inv E (start f) st' c Hrun)
      as (address & d & _ & Hload & Hfs & _).
    exists address.
    rewrite Hfs, recorded_with_yaml
      by (apply NoDup_keys_dict_set; eapply loaded_NoDup; eassumption).
    apply dict_get_set_same.
Qed.

Lemma C10_deploy_keeps_other_entries_witness :
  deployments_yaml sample_files
  = Some (Yaml.Mapping [(KInt 11155111, sample_home_address);
                        (KInt 421614, sample_address)])
  /\ KInt 11155111 <> KInt (rpc_chain_id (sample_env 421614))
  /\ recorded (fs (snd (deploy (sample_env 421614) (start sample_files))))
              (KInt 11155111)
     = recorded sample_files (KInt 11155111).
Proof.
  assert (Hy : deployments_yaml sample_files
               = Some (Yaml.Mapping [(KInt 11155111, sample_home_address);
                                     (KInt 421614, sample_address)]))
    by reflexivity.
  assert (Hk : KInt 11155111 <> KInt (rpc_chain_id (sample_env 421614)))
    by discriminate.
  split; [exact Hy|]. split; [exact Hk|].
  exact (proj1 (C10_deploy_keeps_other_entries (sample_env 421614)
                  sample_files _ Hy) _ Hk).
Defined.

(** * Further properties *)

(** ** The JSON store *)

Lemma dict_get_dict_set (k k' : pykey) (v : string) (d : pydict) :
  dict_get k (dict_set k' v d)
  = if key_eqb k k' then Some v else dict_get k d.
Proof.
  destruct (key_eqb k k') eqn:Hk.
  - apply key_eqb_eq in Hk. subst. apply dict_get_set_same.
  - apply dict_get_set_other. intro He. subst.
    rewrite key_eqb_refl in Hk. discriminate.
Qed.

Lemma dict_get_fold (k : pykey) (items : list (pykey * string))
      (acc : pydict) :
  dict_get k (fold_left (fun d kv => dict_set (fst kv) (snd kv) d) items acc)
  = fold_left (fun r kv => if key_eqb k (fst kv) then Some (snd kv) else r)
              items (dict_get k acc).
Proof.
  revert acc. induction items as [|kv items IH]; intro acc; simpl.
  - reflexivity.
  - now rewrite IH, dict_get_dict_set.
Qed.

Lemma dict_get_dict_of_items (k : pykey) (items : list (pykey * string)) :
  dict_get k (dict_of_items items) = lookup_last k items.
Proof. unfold dict_of_items, lookup_last. now rewrite dict_get_fold. Qed.

Lemma forallb_keys_dict_set (p : pykey -> bool) (k : pykey) (v : string)
      (d : pydict) :
  p k = true -> forallb p (keys d) = true ->
  forallb p (keys (dict_set k v d)) = true.
Proof.
  intros Hk Hd. rewrite keys_dict_set. destruct (dict_get k d); [exact Hd|].
  rewrite forallb_app, Hd. simpl. now rewrite Hk.
Qed.

Lemma forallb_keys_fold (p : pykey -> bool) (items : list (pykey * string))
      (acc : pydict) :
  forallb p (keys items) = true -> forallb p (keys acc) = true ->
  forallb p (keys (fold_left (fun d kv => dict_set (fst kv) (snd kv) d)
                             items acc)) = true.
Proof.
  revert acc. induction items as [|kv items IH]; intros acc Hi Ha; simpl.
  - exact Ha.
  - simpl in Hi. apply andb_prop in Hi. destruct Hi as [Hk Hi].
    apply IH; [exact Hi|]. now apply forallb_keys_dict_set.
Qed.

(** What [load_config] hands back is keyed by distinct strings. *)
Lemma load_config_keys (f : files) (d : pydict) :
  ChainMarketManager.load_config f = Returned (PDict d) ->
  NoDup (keys d) /\ forallb Yaml.is_str (keys d) = true.
Proof.
  unfold ChainMarketManager.load_config.
  destruct (deployments_json f) as [text|]; [|discriminate].
  unfold Json.loads. destruct (Json.scan Json.PStart text) as [ps|];
    [|discriminate].
  simpl. intro H. injection H as <-. unfold Json.dict_of_pairs. split.
  - apply NoDup_keys_dict_of_items.
  - apply forallb_keys_fold; [|reflexivity].
    unfold keys. rewrite map_map. simpl. now induction ps.
Qed.

(** X1.  [load_config()] after [update_config(d)], for any dictionary [d]
    with [int] or [str] keys and any strings as values: it returns a
    dictionary, and what it holds under a key is the value of the last item
    of [d] whose key, written as text, is that key.  Two keys of [d] with one
    text, such as 1 and "1", end as one entry. *)
Theorem X1_load_after_update_lookup (d : pydict) (f : files) :
  exists r : pydict,
    ChainMarketManager.load_config (ChainMarketManager.update_config d f)
    = Returned (PDict r)
    /\ forall k : pykey,
         dict_get k r = lookup_last k (map as_json_item d).
Proof.
  exists (dict_of_items (map as_json_item d)). split.
  - apply load_after_update.
  - intro k. apply dict_get_dict_of_items.
Qed.



(** X3.  Saving what was loaded changes nothing for the next load: when
    [load_config()] returns a dictionary [d], [update_config(d)] followed by
    [load_config()] returns [d] again. *)
Theorem X3_save_of_loaded_round_trips (f : files) (d : pydict) :
  ChainMarketManager.load_config f = Returned (PDict d) ->
  ChainMarketManager.load_config (ChainMarketManager.update_config d f)
  = Returned (PDict d).
Proof.
  intro H. destruct (load_config_keys f d H) as [Hnd Hstr].
  rewrite load_after_update, as_json_item_str by exact Hstr.
  now rewrite dict_of_items_NoDup.
Qed.

Lemma X3_save_of_loaded_round_trips_witness :
  ChainMarketManager.load_config
    (ChainMarketManager.update_config
       (chain_dict [(421614, sample_address)]) no_files)
  = Returned (PDict [(KStr "421614", sample_address)])
  /\ ChainMarketManager.load_config
       (ChainMarketManager.update_config
          [(KStr "421614", sample_address)]
          (ChainMarketManager.update_config
             (chain_dict [(421614, sample_address)]) no_files))
     = Returned (PDict [(KStr "421614", sample_address)]).
Proof.
  assert (H : ChainMarketManager.load_config
                (ChainMarketManager.update_config
                   (chain_dict [(421614, sample_address)]) no_files)
              = Returned (PDict [(KStr "421614", sample_address)]))
    by (vm_compute; reflexivity).
  split; [exact H|].
  exact (X3_save_of_loaded_round_trips _ _ H).
Defined.

Lemma string_forallb_app (p : ascii -> bool) (a b : string) :
  string_forallb p (a ++ b)%string
  = (string_forallb p a && string_forallb p b)%bool.
Proof.
  induction a as [|c a IH]; simpl; [reflexivity|].
  now rewrite IH, andb_assoc.
Qed.

Lemma escape_char_plain (c : ascii) :
  string_forallb is_plain_ascii (Json.escape_char c) = true.
Proof. destruct c as [[] [] [] [] [] [] [] []]; reflexivity. Qed.

Lemma escape_plain (s : string) :
  string_forallb is_plain_ascii (Json.escape s) = true.
Proof.
  induction s as [|c s IH]; simpl; [reflexivity|].
  now rewrite string_forallb_app, escape_char_plain, IH.
Qed.

Lemma encode_basestring_ascii_plain (s : string) :
  string_forallb is_plain_ascii (Json.encode_basestring_ascii s) = true.
Proof.
  unfold Json.encode_basestring_ascii.
  cbn [string_forallb]. rewrite string_forallb_app, escape_plain.
  reflexivity.
Qed.

Lemma encode_items_plain (first : bool) (d : pydict) :
  string_forallb is_plain_ascii (Json.encode_items first d) = true.
Proof.
  revert first. induction d as [|kv d IH]; intro first; [reflexivity|].
  cbn [Json.encode_items]. unfold Json.encode_item.
  rewrite !string_forallb_app, !encode_basestring_ascii_plain, IH.
  now destruct first.
Qed.

(** X4.  The text [update_config] writes to [deployments.json] is made of
    printable ASCII characters and line feeds only, whatever characters the
    keys and the values hold: every other character is written as an
    escape. *)
Theorem X4_written_text_is_ascii (d : pydict) (f : files) :
  exists text : string,
    deployments_json (ChainMarketManager.update_config d f) = Some text
    /\ string_forallb is_plain_ascii text = true.
Proof.
  eexists. split; [reflexivity|].
  rewrite string_forallb_app. destruct d as [|kv d]; [reflexivity|].
  unfold Json.dumps_indent4.
  now rewrite !string_forallb_app, encode_items_plain.
Qed.

Lemma scan_dumps (d : pydict) :
  Json.scan Json.PStart
    (Json.dumps_indent4 d ++ String Json.newline "")%string
  = Some (map pair_of d).
Proof.
  destruct d as [|kv d]; [reflexivity|].
  rewrite dumps_indent4_cons, encode_items_cons, encode_item_app.
  match goal with
  | |- Json.scan _ (String "{" (Json.newline_indent
         ++ ("" ++ String Json.quote ?X)))%string = _ =>
      change (Json.scan (Json.PStr (Json.InKey []) "") X
              = Some (map pair_of (kv :: d)))
  end.
  rewrite scan_item_body, scan_items. reflexivity.
Qed.

Lemma encode_items_pairs (first : bool) (d1 d2 : pydict) :
  map pair_of d1 = map pair_of d2 ->
  Json.encode_items first d1 = Json.encode_items first d2.
Proof.
  revert first d2. induction d1 as [|kv1 d1 IH]; intros first [|kv2 d2] H;
    try discriminate; [reflexivity|].
  simpl in H. injection H as Hk Hv Hd.
  cbn [Json.encode_items]. unfold Json.encode_item.
  now rewrite Hk, Hv, (IH false d2 Hd).
Qed.

(** X5.  Two dictionaries are written to [deployments.json] as the same text
    exactly when, item by item and in order, their keys have the same text
    and their values are the same. *)
Theorem X5_written_text_determines_items (d1 d2 : pydict) (f1 f2 : files) :
  deployments_json (ChainMarketManager.update_config d1 f1)
  = deployments_json (ChainMarketManager.update_config d2 f2)
  <-> map pair_of d1 = map pair_of d2.
Proof.
  unfold ChainMarketManager.update_config, with_json.
  cbn [deployments_json]. split.
  - intro H. injection H as H.
    pose proof (scan_dumps d1) as H1. rewrite H, scan_dumps in H1.
    now injection H1.
  - intro H. f_equal. f_equal.
    destruct d1 as [|kv1 d1], d2 as [|kv2 d2]; try discriminate;
      [reflexivity|].
    unfold Json.dumps_indent4.
    now rewrite (encode_items_pairs true _ _ H).
Qed.

Lemma X5_written_text_determines_items_witness :
  map pair_of [(KInt 421614, sample_address)]
  = map pair_of [(KStr "421614", sample_address)]
  /\ deployments_json
       (ChainMarketManager.update_config
          [(KInt 421614, sample_address)] no_files)
     = deployments_json
         (ChainMarketManager.update_config
            [(KStr "421614", sample_address)] sample_files).
Proof.
  assert (H : map pair_of [(KInt 421614, sample_address)]
              = map pair_of [(KStr "421614", sample_address)])
    by reflexivity.
  split; [exact H|].
  exact (proj2 (X5_written_text_determines_items _ _ no_files sample_files)
               H).
Defined.

(** X6.  The two stores do not touch each other: what [load_config()]
    returns is the same before and after a [deploy] run or a [set_peer]
    run, however the run ends, and the address [deploy] and [set_peer] read
    for a chain is the same before and after [update_config]. *)
Theorem X6_stores_are_independent :
  (forall (E : environment) (st : state),
      ChainMarketManager.load_config (fs (snd (deploy E st)))
      = ChainMarketManager.load_config (fs st))
  /\ (forall (E : environment) (st : state),
         ChainMarketManager.load_config (fs (snd (set_peer E st)))
         = ChainMarketManager.load_config (fs st))
  /\ (forall (d : pydict) (f : files) (k : pykey),
         recorded (ChainMarketManager.update_config d f) k = recorded f k).
Proof.
  split; [|split].
  - intros E st. unfold ChainMarketManager.load_config.
    now rewrite deploy_json.
  - intros E st. now rewrite set_peer_fs.
  - reflexivity.
Qed.

(** ** Runs of [deploy] and [set_peer] *)

Lemma loaded_dict_get (f : files) (d : pydict) (k : pykey) :
  loaded f = PDict d -> recorded f k = dict_get k d.
Proof.
  unfold loaded, recorded. destruct (deployments_yaml f) as [doc|].
  - now intros ->.
  - intro H. now injection H as <-.
Qed.

(** [connect_and_deploy] returned: every step before it, and the state. *)
Lemma connect_and_deploy_steps (E : environment) (st st' : state) (c : Z) :
  connect_and_deploy E st = (Returned c, st') ->
  exists (guard_bytes : list byte) (abi endpoint address : string)
         (d : pydict),
    rpc_reachable E = true
    /\ fromhex (str_drop 2 (eoa E) ++ "00")%string = Some guard_bytes
    /\ createX_json (fs st) = Some abi
    /\ table_get (rpc_chain_id E) lz_endpoints = Some endpoint
    /\ createX_deployCreate3 E (guard_bytes ++ bytes_view E st)
         (bytecode E ++ abi_encode E endpoint 500000) = Some address
    /\ loaded (fs st) = PDict d
    /\ st' =
       mkState
         (with_yaml
            (Yaml.safe_dump (dict_set (KInt (rpc_chain_id E)) address d))
            (with_abi (abi_json E ++ String Json.newline "")%string (fs st)))
         (trace st ++
            [SetNetworkEnv (WEB3_PROVIDER_URL E); AddAccount; LoadPartial;
             DeployCreate3 (guard_bytes ++ bytes_view E st)
               (bytecode E ++ abi_encode E endpoint 500000);
             LoggingInfo ("Gas relayer deployed at " ++ address
                            ++ " on chain: "
                            ++ str_of_int (rpc_chain_id E))%string;
             At address])
         (drawn st + 11).
Proof.
  intro Hrun. pose proof Hrun as Hrun'. revert Hrun'.
  rewrite connect_and_deploy_run. cbv zeta.
  destruct (rpc_reachable E) eqn:Hrpc; [|discriminate].
  destruct (fromhex _) as [guard_bytes|] eqn:Hhex; [|discriminate].
  destruct (createX_json (fs st)) as [abi|] eqn:Habi; [|discriminate].
  destruct (table_get _ _) as [endpoint|] eqn:Hend; [|discriminate].
  destruct (createX_deployCreate3 _ _ _) as [address|] eqn:Hdep;
    [|discriminate].
  destruct (loaded (fs st)) as [|d] eqn:Hload; [discriminate|].
  intros _.
  exists guard_bytes, abi, endpoint, address, d.
  repeat (split; [reflexivity || assumption|]).
  rewrite (connect_and_deploy_returns E st guard_bytes abi endpoint address d
             Hrpc Hhex Habi Hend Hdep Hload) in Hrun.
  now injection Hrun as _ <-.
Qed.

Lemma factory_calls_app (l l' : list event) :
  factory_calls (l ++ l') = factory_calls l ++ factory_calls l'.
Proof. apply filter_app. Qed.

Lemma recorded_after_dump (f : files) (d : pydict) (k : pykey) (a : string)
      (g : files) :
  loaded f = PDict d ->
  recorded (with_yaml (Yaml.safe_dump (dict_set k a d)) g) k = Some a
  /\ forall k', k' <> k ->
       recorded (with_yaml (Yaml.safe_dump (dict_set k a d)) g) k'
       = recorded f k'.
Proof.
  intro Hload.
  assert (Hnd : NoDup (keys (dict_set k a d)))
    by (apply NoDup_keys_dict_set; eapply loaded_NoDup; eassumption).
  split.
  - rewrite recorded_with_yaml by exact Hnd. apply dict_get_set_same.
  - intros k' Hk. rewrite recorded_with_yaml by exact Hnd.
    rewrite dict_get_set_other by exact Hk.
    symmetry. now apply loaded_dict_get.
Qed.

(** X7.  When the connect and deploy steps of [deploy] return, the factory
    was called exactly once in them, with the salt and with the bytecode
    followed by the encoded endpoint of the chain and 500000; the address it
    returned is the one recorded for the chain in [deployments.yaml]; the ABI
    file holds the ABI text and a line feed; and eleven random bytes were
    drawn. *)
Theorem X7_deployed_address_is_recorded (E : environment) (st st' : state)
        (c : Z) :
  connect_and_deploy E st = (Returned c, st') ->
  exists (guard_bytes : list byte) (endpoint address : string),
    subscript lz_endpoints (rpc_chain_id E) = Returned endpoint
    /\ createX_deployCreate3 E (guard_bytes ++ bytes_view E st)
         (bytecode E ++ abi_encode E endpoint 500000) = Some address
    /\ factory_calls (trace st')
       = factory_calls (trace st)
           ++ [DeployCreate3 (guard_bytes ++ bytes_view E st)
                 (bytecode E ++ abi_encode E endpoint 500000)]
    /\ recorded (fs st') (KInt (rpc_chain_id E)) = Some address
    /\ gas_relayer_json (fs st')
       = Some (abi_json E ++ String Json.newline "")%string
    /\ drawn st' = (drawn st + 11)%nat.
Proof.
  intro Hrun.
  destruct (connect_and_deploy_steps E st st' c Hrun)
    as (guard_bytes & abi & endpoint & address & d & _ & _ & _ & Hend & Hdep
        & Hload & ->).
  exists guard_bytes, endpoint, address. cbn [fs trace drawn].
  split; [unfold subscript; now rewrite Hend|].
  split; [exact Hdep|]. split.
  - rewrite factory_calls_app. reflexivity.
  - split; [now apply (recorded_after_dump (fs st))|].
    split; reflexivity.
Qed.

Lemma X7_deployed_address_is_recorded_witness :
  connect_and_deploy (sample_env 421614) (start sample_files)
  = (Returned 421614,
     snd (connect_and_deploy (sample_env 421614) (start sample_files)))
  /\ exists (guard_bytes : list byte) (endpoint address : string),
       subscript lz_endpoints 421614 = Returned endpoint
       /\ createX_deployCreate3 (sample_env 421614)
            (guard_bytes ++ bytes_view (sample_env 421614)
                                       (start sample_files))
            (bytecode (sample_env 421614)
               ++ abi_encode (sample_env 421614) endpoint 500000)
          = Some address
       /\ recorded
            (fs (snd (connect_and_deploy (sample_env 421614)
                                         (start sample_files))))
            (KInt 421614) = Some address.
Proof.
  assert (Hrun :
    connect_and_deploy (sample_env 421614) (start sample_files)
    = (Returned 421614,
       snd (connect_and_deploy (sample_env 421614) (start sample_files))))
    by (vm_compute; reflexivity).
  split; [exact Hrun|].
  destruct (X7_deployed_address_is_recorded _ _ _ _ Hrun)
    as (g & e & a & H1 & H2 & _ & H4 & _).
  exists g, e, a. split; [exact H1|]. split; [exact H2 | exact H4].
Defined.

(** X8.  Deploying to a chain other than the home chain while the home chain
    has no address on record: the contract is deployed and its address
    recorded, then the run raises the [KeyError] of 11155111, and no peer
    registration is sent. *)
Theorem X8_deploy_before_home (E : environment) (f : files) (c : Z)
        (st' : state) :
  rpc_chain_id E <> 11155111 ->
  recorded f (KInt 11155111) = None ->
  connect_and_deploy E (start f) = (Returned c, st') ->
  fst (deploy E (start f)) = Raised (KeyError (KInt 11155111))
  /\ set_peer_calls (trace (snd (deploy E (start f)))) = []
  /\ exists address : string,
       recorded (fs (snd (deploy E (start f)))) (KInt (rpc_chain_id E))
       = Some address.
Proof.
  intros Hc Hhome Hrun.
  pose proof (connect_and_deploy_set_peer_calls E (start f)) as Hnone.
  rewrite Hrun in Hnone. cbn [snd start trace] in Hnone.
  rewrite (deploy_then_set_peer E (start f) st' c Hc Hrun).
  destruct (connect_and_deploy_steps E (start f) st' c Hrun)
    as (guard_bytes & abi & endpoint & address & d & Hrpc & _ & _ & _ & _
        & Hload & Hst).
  assert (Hfs : fs st' = with_yaml
                  (Yaml.safe_dump (dict_set (KInt (rpc_chain_id E)) address d))
                  (with_abi (abi_json E ++ String Json.newline "")%string f))
    by now rewrite Hst.
  cbn [start fs] in Hload.
  destruct (recorded_after_dump f d (KInt (rpc_chain_id E)) address
              (with_abi (abi_json E ++ String Json.newline "")%string f)
              Hload) as [Hown Hother].
  rewrite <- Hfs in Hown, Hother.
  assert (Hh : recorded (fs st') (KInt 11155111) = None).
  { rewrite Hother; [exact Hhome|]. intro He. injection He as He.
    now apply Hc. }
  assert (Hnull : deployments_yaml (fs st') <> Some Yaml.Null)
    by (rewrite Hfs; discriminate).
  rewrite set_peer_run. cbv zeta. rewrite Hrpc.
  rewrite (proj2 (getitem_loaded _ _ _) Hown).
  rewrite (getitem_loaded_missing _ _ Hnull Hh). cbn [fst snd trace fs].
  split; [reflexivity|]. split.
  - rewrite !set_peer_calls_app, Hnone. reflexivity.
  - now exists address.
Qed.

Lemma X8_deploy_before_home_witness :
  rpc_chain_id (sample_env 421614) <> 11155111
  /\ recorded (sample_files_with None) (KInt 11155111) = None
  /\ connect_and_deploy (sample_env 421614)
       (start (sample_files_with None))
     = (Returned 421614,
        snd (connect_and_deploy (sample_env 421614)
                                (start (sample_files_with None))))
  /\ fst (deploy (sample_env 421614) (start (sample_files_with None)))
     = Raised (KeyError (KInt 11155111)).
Proof.
  assert (Hne : rpc_chain_id (sample_env 421614) <> 11155111)
    by discriminate.
  assert (Hh : recorded (sample_files_with None) (KInt 11155111) = None)
    by reflexivity.
  assert (Hrun :
    connect_and_deploy (sample_env 421614) (start (sample_files_with None))
    = (Returned 421614,
       snd (connect_and_deploy (sample_env 421614)
                               (start (sample_files_with None)))))
    by (vm_compute; reflexivity).
  split; [exact Hne|]. split; [exact Hh|]. split; [exact Hrun|].
  exact (proj1 (X8_deploy_before_home _ _ _ _ Hne Hh Hrun)).
Defined.

(** X9.  When [deployments.yaml] exists and is an empty document, [deploy]
    still calls the factory and writes the ABI file, then raises [TypeError]
    at the item assignment: the contract is deployed, nothing is recorded,
    the file stays empty and no peer registration is sent. *)
Theorem X9_empty_document (E : environment) (st : state)
        (guard_bytes : list byte) (abi endpoint address : string) :
  deployments_yaml (fs st) = Some Yaml.Null ->
  rpc_reachable E = true ->
  fromhex (str_drop 2 (eoa E) ++ "00")%string = Some guard_bytes ->
  createX_json (fs st) = Some abi ->
  table_get (rpc_chain_id E) lz_endpoints = Some endpoint ->
  createX_deployCreate3 E (guard_bytes ++ bytes_view E st)
    (bytecode E ++ abi_encode E endpoint 500000) = Some address ->
  fst (deploy E st) = Raised TypeError
  /\ factory_calls (trace (snd (deploy E st)))
     = factory_calls (trace st)
         ++ [DeployCreate3 (guard_bytes ++ bytes_view E st)
               (bytecode E ++ abi_encode E endpoint 500000)]
  /\ set_peer_calls (trace (snd (deploy E st))) = set_peer_calls (trace st)
  /\ deployments_yaml (fs (snd (deploy E st))) = Some Yaml.Null
  /\ gas_relayer_json (fs (snd (deploy E st)))
     = Some (abi_json E ++ String Json.newline "")%string.
Proof.
  intros Hy Hrpc Hhex Habi Hend Hdep.
  rewrite deploy_unfold, connect_and_deploy_run. cbv zeta.
  rewrite Hrpc, Hhex, Habi, Hend, Hdep. unfold loaded. rewrite Hy.
  cbn [Yaml.safe_load fst snd trace fs with_abi deployments_yaml
       gas_relayer_json].
  split; [reflexivity|]. split.
  - rewrite !factory_calls_app. cbn. now rewrite app_nil_r.
  - split; [|split; [exact Hy | reflexivity]].
    rewrite !set_peer_calls_app. cbn. now rewrite !app_nil_r.
Qed.

Lemma X9_empty_document_witness :
  fst (deploy (sample_env 421614)
              (start (sample_files_with (Some Yaml.Null))))
  = Raised TypeError
  /\ deployments_yaml
       (fs (snd (deploy (sample_env 421614)
                        (start (sample_files_with (Some Yaml.Null))))))
     = Some Yaml.Null.
Proof.
  pose proof (X9_empty_document (sample_env 421614)
                (start (sample_files_with (Some Yaml.Null)))
                (sample_deployer ++ [x00]) "[]"
                "0x6EDCE65403992e310A62460808c4b910D972f10f" sample_address
                eq_refl eq_refl) as H.
  assert (Hhex : fromhex (str_drop 2 (eoa (sample_env 421614)) ++ "00")%string
                 = Some (sample_deployer ++ [x00]))
    by (vm_compute; reflexivity).
  specialize (H Hhex eq_refl eq_refl eq_refl).
  split; [exact (proj1 H) | exact (proj1 (proj2 (proj2 (proj2 H))))].
Defined.

(** X10.  On a chain with no entry in [lz_endpoints], [deploy] never calls
    the factory, sends no peer registration and leaves every file as it was;
    when the steps before the lookup go through, what it raises is the
    [KeyError] of the chain ID. *)
Theorem X10_chain_without_endpoint (E : environment) (st : state) :
  table_get (rpc_chain_id E) lz_endpoints = None ->
  fs (snd (deploy E st)) = fs st
  /\ factory_calls (trace (snd (deploy E st))) = factory_calls (trace st)
  /\ set_peer_calls (trace (snd (deploy E st))) = set_peer_calls (trace st)
  /\ (exists e, fst (deploy E st) = Raised e)
  /\ (rpc_reachable E = true ->
      fromhex (str_drop 2 (eoa E) ++ "00")%string <> None ->
      createX_json (fs st) <> None ->
      fst (deploy E st) = Raised (KeyError (KInt (rpc_chain_id E)))).
Proof.
  intro Hend. rewrite deploy_unfold, connect_and_deploy_run. cbv zeta.
  rewrite Hend.
  destruct (rpc_reachable E);
    [destruct (fromhex _); [destruct (createX_json (fs st))|]|];
    cbn [fst snd fs trace];
    rewrite ?factory_calls_app, ?set_peer_calls_app; cbn;
    rewrite ?app_nil_r;
    (split; [reflexivity|]); (split; [reflexivity|]);
    (split; [reflexivity|]); (split; [eexists; reflexivity|]);
    intros; congruence.
Qed.

Lemma X10_chain_without_endpoint_witness :
  table_get (rpc_chain_id (sample_env 1)) lz_endpoints = None
  /\ fst (deploy (sample_env 1) (start sample_files))
     = Raised (KeyError (KInt 1))
  /\ fs (snd (deploy (sample_env 1) (start sample_files))) = sample_files.
Proof.
  assert (Hend : table_get (rpc_chain_id (sample_env 1)) lz_endpoints = None)
    by reflexivity.
  pose proof (X10_chain_without_endpoint (sample_env 1) (start sample_files)
                Hend) as H.
  split; [exact Hend|]. split.
  - apply (proj2 (proj2 (proj2 (proj2 H)))); [reflexivity | |];
      vm_compute; discriminate.
  - exact (proj1 H).
Defined.



(** X12.  [set_peer] writes no file, draws no random byte, never calls the
    factory and sends at most one peer registration, however it ends. *)
Theorem X12_set_peer_only_registers (E : environment) (st : state) :
  fs (snd (set_peer E st)) = fs st
  /\ drawn (snd (set_peer E st)) = drawn st
  /\ exists new : list event,
       trace (snd (set_peer E st)) = trace st ++ new
       /\ factory_calls new = []
       /\ (List.length (set_peer_calls new) <= 1)%nat.
Proof.
  rewrite set_peer_run. cbv zeta.
  destruct (rpc_reachable E);
    [destruct (getitem _ (KInt (rpc_chain_id E)));
     [destruct (getitem _ (KInt 11155111))|]|];
    cbn [snd fs drawn trace];
    (split; [reflexivity|]); (split; [reflexivity|]);
    eexists; rewrite <- ?app_assoc;
    (split; [reflexivity|]); split; cbn; auto.
Qed.

(** X13.  [set_peer] looks up the chain's own address first.  With the chain
    reachable and [deployments.yaml] missing or holding a mapping: when the
    chain's own address is not on record it raises the [KeyError] of the
    chain ID before any contract is bound, whether or not the home chain is
    on record; when only the home chain's address is missing it binds the
    contract at the chain's own address and then raises the [KeyError] of
    11155111. *)
Theorem X13_set_peer_lookup_order (E : environment) (f : files) :
  rpc_reachable E = true ->
  deployments_yaml f <> Some Yaml.Null ->
  (recorded f (KInt (rpc_chain_id E)) = None ->
   set_peer E (start f)
   = (Raised (KeyError (KInt (rpc_chain_id E))),
      mkState f [SetNetworkEnv (WEB3_PROVIDER_URL E); AddAccount;
                 LoadPartial] 0))
  /\ (forall a : string,
         recorded f (KInt (rpc_chain_id E)) = Some a ->
         recorded f (KInt 11155111) = None ->
         set_peer E (start f)
         = (Raised (KeyError (KInt 11155111)),
            mkState f [SetNetworkEnv (WEB3_PROVIDER_URL E); AddAccount;
                       LoadPartial; At a] 0)).
Proof.
  intros Hrpc Hnull. split.
  - intro Hown. rewrite set_peer_run. cbv zeta. rewrite Hrpc.
    cbn [start fs trace drawn].
    now rewrite (getitem_loaded_missing f _ Hnull Hown).
  - intros a Hown Hhome. rewrite set_peer_run. cbv zeta. rewrite Hrpc.
    cbn [start fs trace drawn].
    rewrite (proj2 (getitem_loaded f _ a) Hown).
    now rewrite (getitem_loaded_missing f _ Hnull Hhome).
Qed.

Lemma X13_set_peer_lookup_order_witness :
  rpc_reachable (sample_env 421614) = true
  /\ deployments_yaml no_files <> Some Yaml.Null
  /\ recorded no_files (KInt (rpc_chain_id (sample_env 421614))) = None
  /\ fst (set_peer (sample_env 421614) (start no_files))
     = Raised (KeyError (KInt 421614)).
Proof.
  assert (Hnull : deployments_yaml no_files <> Some Yaml.Null)
    by discriminate.
  assert (Hown : recorded no_files
                   (KInt (rpc_chain_id (sample_env 421614))) = None)
    by reflexivity.
  split; [reflexivity|]. split; [exact Hnull|]. split; [exact Hown|].
  rewrite (proj1 (X13_set_peer_lookup_order (sample_env 421614) no_files
                    eq_refl Hnull) Hown).
  reflexivity.
Defined.

(** X14.  A [deploy] run sends a peer registration only on a chain other
    than the home chain, only after its connect and deploy steps returned,
    and only with the home chain's address on record after them; the
    registration then goes to the address recorded for the chain. *)
Theorem X14_registration_needs_deployment (E : environment) (f : files) :
  set_peer_calls (trace (snd (deploy E (start f)))) <> [] ->
  rpc_chain_id E <> 11155111
  /\ exists (st' : state) (a h : string),
       connect_and_deploy E (start f) = (Returned (rpc_chain_id E), st')
       /\ recorded (fs st') (KInt (rpc_chain_id E)) = Some a
       /\ recorded (fs st') (KInt 11155111) = Some h
       /\ set_peer_calls (trace (snd (deploy E (start f))))
          = [SetPeer a 4294967294 h].
Proof.
  pose proof (connect_and_deploy_set_peer_calls E (start f)) as Hnone.
  rewrite deploy_unfold.
  destruct (connect_and_deploy E (start f)) as [[c|e] st'] eqn:Hrun;
    cbn [snd start trace set_peer_calls filter] in Hnone;
    [|cbn [snd]; congruence].
  pose proof (connect_and_deploy_value E _ _ _ Hrun) as Hc. subst c.
  destruct (Z.eqb_spec (rpc_chain_id E) 11155111) as [Heq|Hne];
    cbn [negb snd]; [congruence|].
  destruct (set_peer_sends E st')
    as (new & Htr & [Hn | (a & h & Ha & Hh & Hn)]);
    rewrite Htr, set_peer_calls_app, Hnone, Hn; cbn [app];
    [congruence|].
  intros _. split; [exact Hne|]. now exists st', a, h.
Qed.

Lemma X14_registration_needs_deployment_witness :
  set_peer_calls
    (trace (snd (deploy (sample_env 421614) (start sample_files)))) <> []
  /\ rpc_chain_id (sample_env 421614) <> 11155111.
Proof.
  assert (H : set_peer_calls
                (trace (snd (deploy (sample_env 421614)
                                    (start sample_files)))) <> [])
    by (vm_compute; discriminate).
  split; [exact H|].
  exact (proj1 (X14_registration_needs_deployment _ _ H)).
Defined.

(** A [deploy] run on a chain other than the home chain, with the home
    chain on record before it: the one registration it sends. *)
Lemma deploy_registers (E : environment) (f : files) (c : Z) (st' : state)
      (h : string) :
  rpc_chain_id E <> 11155111 ->
  connect_and_deploy E (start f) = (Returned c, st') ->
  recorded f (KInt 11155111) = Some h ->
  exists a : string,
    recorded (fs st') (KInt (rpc_chain_id E)) = Some a
    /\ set_peer_calls (trace (snd (deploy E (start f))))
       = [SetPeer a 4294967294 h].
Proof.
  intros Hc Hrun Hh.
  pose proof (connect_and_deploy_set_peer_calls E (start f)) as Hnone.
  rewrite Hrun in Hnone. cbn [snd start trace] in Hnone.
  rewrite (deploy_then_set_peer E (start f) st' c Hc Hrun).
  destruct (connect_and_deploy_steps E (start f) st' c Hrun)
    as (guard_bytes & abi & endpoint & address & d & Hrpc & _ & _ & _ & _
        & Hload & Hst).
  cbn [start fs] in Hload.
  destruct (recorded_after_dump f d (KInt (rpc_chain_id E)) address
              (with_abi (abi_json E ++ String Json.newline "")%string f)
              Hload) as [Hown Hother].
  assert (Hfs : fs st' = with_yaml
                  (Yaml.safe_dump (dict_set (KInt (rpc_chain_id E)) address d))
                  (with_abi (abi_json E ++ String Json.newline "")%string f))
    by now rewrite Hst.
  rewrite <- Hfs in Hown, Hother.
  assert (Hh' : recorded (fs st') (KInt 11155111) = Some h).
  { rewrite Hother; [exact Hh|]. intro He. injection He as He.
    now apply Hc. }
  exists address. split; [exact Hown|].
  rewrite (set_peer_registers E st' address h Hrpc Hown Hh').
  rewrite set_peer_calls_app, Hnone. reflexivity.
Qed.

(** X15.  Deploying to the home chain and then, with the files that run
    left, to another chain: the second run sends one peer registration, to
    the contract it deployed, with endpoint ID 4294967294 and the address the
    first run recorded for the home chain. *)
Theorem X15_home_then_other_chain (E1 E2 : environment) (f : files)
        (c1 c2 : Z) (st1 st2 : state) :
  rpc_chain_id E1 = 11155111 ->
  rpc_chain_id E2 <> 11155111 ->
  connect_and_deploy E1 (start f) = (Returned c1, st1) ->
  connect_and_deploy E2 (start (fs (snd (deploy E1 (start f)))))
  = (Returned c2, st2) ->
  exists a1 a2 : string,
    recorded (fs (snd (deploy E1 (start f)))) (KInt 11155111) = Some a1
    /\ recorded (fs st2) (KInt (rpc_chain_id E2)) = Some a2
    /\ set_peer_calls
         (trace (snd (deploy E2 (start (fs (snd (deploy E1 (start f))))))))
       = [SetPeer a2 4294967294 a1].
Proof.
  intros H1 H2 Hrun1 Hrun2.
  assert (Hst1 : snd (deploy E1 (start f)) = st1)
    by now rewrite (deploy_on_home E1 (start f) H1), Hrun1.
  rewrite Hst1 in *.
  destruct (connect_and_deploy_steps E1 (start f) st1 c1 Hrun1)
    as (g & abi & endpoint & a1 & d & _ & _ & _ & _ & _ & Hload & Hst).
  cbn [start fs] in Hload.
  assert (Hhome : recorded (fs st1) (KInt 11155111) = Some a1).
  { rewrite Hst. cbn [fs]. rewrite <- H1.
    now apply (recorded_after_dump f). }
  destruct (deploy_registers E2 (fs st1) c2 st2 a1 H2 Hrun2 Hhome)
    as (a2 & Hown & Hcalls).
  now exists a1, a2.
Qed.

Lemma X15_home_then_other_chain_witness :
  rpc_chain_id (sample_env 11155111) = 11155111
  /\ rpc_chain_id (sample_env 421614) <> 11155111
  /\ exists a1 a2 : string,
       set_peer_calls
         (trace (snd (deploy (sample_env 421614)
                        (start (fs (snd (deploy (sample_env 11155111)
                                           (start (sample_files_with
                                                     None)))))))))
       = [SetPeer a2 4294967294 a1].
Proof.
  assert (Hrun1 :
    connect_and_deploy (sample_env 11155111) (start (sample_files_with None))
    = (Returned 11155111,
       snd (connect_and_deploy (sample_env 11155111)
              (start (sample_files_with None)))))
    by (vm_compute; reflexivity).
  assert (Hrun2 :
    connect_and_deploy (sample_env 421614)
      (start (fs (snd (deploy (sample_env 11155111)
                         (start (sample_files_with None))))))
    = (Returned 421614,
       snd (connect_and_deploy (sample_env 421614)
              (start (fs (snd (deploy (sample_env 11155111)
                                 (start (sample_files_with None)))))))))
    by (vm_compute; reflexivity).
  assert (Hne : rpc_chain_id (sample_env 421614) <> 11155111)
    by discriminate.
  destruct (X15_home_then_other_chain (sample_env 11155111)
              (sample_env 421614) (sample_files_with None) _ _ _ _
              eq_refl Hne Hrun1 Hrun2) as (a1 & a2 & _ & _ & H).
  split; [reflexivity|]. split; [exact Hne|].
  exists a1, a2. exact H.
Defined.

(** X16.  A first run: when there is no [deployments.yaml] and the connect
    and deploy steps return, the file they leave holds one entry, the chain
    ID with the address the factory returned. *)
Theorem X16_first_run_writes_one_entry (E : environment) (st st' : state)
        (c : Z) :
  deployments_yaml (fs st) = None ->
  connect_and_deploy E st = (Returned c, st') ->
  exists address : string,
    deployments_yaml (fs st')
    = Some (Yaml.Mapping [(KInt (rpc_chain_id E), address)])
    /\ In (At address) (trace st').
Proof.
  intros Hy Hrun.
  destruct (connect_and_deploy_steps E st st' c Hrun)
    as (g & abi & endpoint & address & d & _ & _ & _ & _ & _ & Hload & ->).
  unfold loaded in Hload. rewrite Hy in Hload. injection Hload as <-.
  exists address. cbn [fs trace with_yaml deployments_yaml]. split.
  - reflexivity.
  - apply in_or_app. right. simpl. tauto.
Qed.

Lemma X16_first_run_writes_one_entry_witness :
  deployments_yaml (fs (start (sample_files_with None))) = None
  /\ exists address : string,
       deployments_yaml
         (fs (snd (connect_and_deploy (sample_env 421614)
                     (start (sample_files_with None)))))
       = Some (Yaml.Mapping [(KInt 421614, address)]).
Proof.
  assert (Hrun :
    connect_and_deploy (sample_env 421614) (start (sample_files_with None))
    = (Returned 421614,
       snd (connect_and_deploy (sample_env 421614)
              (start (sample_files_with None)))))
    by (vm_compute; reflexivity).
  split; [reflexivity|].
  destruct (X16_first_run_writes_one_entry (sample_env 421614)
              (start (sample_files_with None)) _ _ eq_refl Hrun)
    as (address & H & _).
  exists address. exact H.
Defined.

(** X17.  Deploying twice to one chain, the second run starting from the
    files the first one left: the address on record for the chain is the
    one the factory returned in the second run, and every other entry is
    what it was before the first run. *)
Theorem X17_redeploy_overwrites (E1 E2 : environment) (f : files)
        (c1 c2 : Z) (st1 st2 : state) :
  rpc_chain_id E1 = rpc_chain_id E2 ->
  connect_and_deploy E1 (start f) = (Returned c1, st1) ->
  connect_and_deploy E2 (start (fs st1)) = (Returned c2, st2) ->
  (exists (guard_bytes : list byte) (endpoint address : string),
      createX_deployCreate3 E2
        (guard_bytes ++ bytes_view E2 (start (fs st1)))
        (bytecode E2 ++ abi_encode E2 endpoint 500000) = Some address
      /\ recorded (fs st2) (KInt (rpc_chain_id E2)) = Some address)
  /\ forall k : pykey,
       k <> KInt (rpc_chain_id E2) ->
       recorded (fs st2) k = recorded f k.
Proof.
  intros Hsame Hrun1 Hrun2.
  destruct (connect_and_deploy_steps E1 (start f) st1 c1 Hrun1)
    as (g1 & abi1 & e1 & a1 & d1 & _ & _ & _ & _ & _ & Hload1 & Hst1).
  destruct (connect_and_deploy_steps E2 (start (fs st1)) st2 c2 Hrun2)
    as (g2 & abi2 & e2 & a2 & d2 & _ & _ & _ & _ & Hdep2 & Hload2 & Hst2).
  cbn [start fs] in Hload1, Hload2.
  destruct (recorded_after_dump f d1 (KInt (rpc_chain_id E1)) a1
              (with_abi (abi_json E1 ++ String Json.newline "")%string f)
              Hload1) as [_ Hother1].
  destruct (recorded_after_dump (fs st1) d2 (KInt (rpc_chain_id E2)) a2
              (with_abi (abi_json E2 ++ String Json.newline "")%string
                        (fs st1))
              Hload2) as [Hown2 Hother2].
  assert (Hfs1 : fs st1 = with_yaml
                   (Yaml.safe_dump (dict_set (KInt (rpc_chain_id E1)) a1 d1))
                   (with_abi (abi_json E1 ++ String Json.newline "")%string f))
    by now rewrite Hst1.
  assert (Hfs2 : fs st2 = with_yaml
                   (Yaml.safe_dump (dict_set (KInt (rpc_chain_id E2)) a2 d2))
                   (with_abi (abi_json E2 ++ String Json.newline "")%string
                             (fs st1)))
    by now rewrite Hst2.
  rewrite <- Hfs1 in Hother1. rewrite <- Hfs2 in Hown2, Hother2.
  split.
  - exists g2, e2, a2. split; [exact Hdep2 | exact Hown2].
  - intros k Hk. rewrite (Hother2 k Hk). apply Hother1.
    now rewrite Hsame.
Qed.

Lemma X17_redeploy_overwrites_witness :
  rpc_chain_id (sample_env 421614) = rpc_chain_id (sample_env 421614)
  /\ recorded
       (fs (snd (connect_and_deploy (sample_env 421614)
                   (start (fs (snd (connect_and_deploy (sample_env 421614)
                                      (start sample_files)))))))) 
       (KInt 11155111)
     = recorded sample_files (KInt 11155111).
Proof.
  assert (Hrun1 :
    connect_and_deploy (sample_env 421614) (start sample_files)
    = (Returned 421614,
       snd (connect_and_deploy (sample_env 421614) (start sample_files))))
    by (vm_compute; reflexivity).
  assert (Hrun2 :
    connect_and_deploy (sample_env 421614)
      (start (fs (snd (connect_and_deploy (sample_env 421614)
                         (start sample_files)))))
    = (Returned 421614,
       snd (connect_and_deploy (sample_env 421614)
              (start (fs (snd (connect_and_deploy (sample_env 421614)
                                 (start sample_files))))))))
    by (vm_compute; reflexivity).
  split; [reflexivity|].
  apply (proj2 (X17_redeploy_overwrites _ _ _ _ _ _ _ eq_refl Hrun1 Hrun2)).
  discriminate.
Defined.

(** ** The order of the entries written *)

Lemma string_leb_total (a b : string) :
  String.leb a b = false -> String.leb b a = true.
Proof.
  unfold String.leb. rewrite (String.compare_antisym a b).
  now destruct (String.compare b a).
Qed.

Lemma key_leb_total (a b : pykey) :
  Yaml.key_leb a b = false -> Yaml.key_leb b a = true.
Proof.
  destruct a as [x|x], b as [y|y]; simpl; try discriminate.
  - intro H. apply Z.leb_gt in H. apply Z.leb_le. lia.
  - apply string_leb_total.
Qed.

Lemma insert_ascending (kv : pykey * string) (l : list (pykey * string)) :
  ascending l -> ascending (Yaml.insert kv l).
Proof.
  unfold ascending. induction l as [|kv' l IH]; intro Hs; simpl.
  - repeat constructor.
  - destruct (Yaml.key_leb (fst kv) (fst kv')) eqn:Hle.
    + constructor; [exact Hs|]. now constructor.
    + inversion Hs as [|? ? Hs' Hhd]; subst.
      constructor; [now apply IH|].
      destruct l as [|kv'' l]; simpl.
      * constructor. now apply key_leb_total.
      * destruct (Yaml.key_leb (fst kv) (fst kv'')).
        -- constructor. now apply key_leb_total.
        -- inversion Hhd; subst. now constructor.
Qed.

Lemma sort_ascending (l : list (pykey * string)) : ascending (Yaml.sort l).
Proof.
  induction l as [|kv l IH]; simpl.
  - constructor.
  - now apply insert_ascending.
Qed.

(** X18.  The mapping a returning [deploy] leaves in [deployments.yaml]
    holds the entries of the loaded mapping with the entry of the chain set
    to the new address, nothing more and nothing less; when every key of the
    loaded mapping is a chain ID, they are written in ascending order of the
    chain IDs. *)
Theorem X18_written_entries_are_sorted (E : environment) (st st' : state)
        (c : Z) :
  connect_and_deploy E st = (Returned c, st') ->
  exists (entries : list (pykey * string)) (address : string) (d : pydict),
    loaded (fs st) = PDict d
    /\ deployments_yaml (fs st') = Some (Yaml.Mapping entries)
    /\ Permutation entries (dict_set (KInt (rpc_chain_id E)) address d)
    /\ (forallb Yaml.is_int (keys d) = true -> ascending entries).
Proof.
  intro Hrun.
  destruct (connect_and_deploy_steps E st st' c Hrun)
    as (g & abi & endpoint & address & d & _ & _ & _ & _ & _ & Hload & ->).
  exists (Yaml.sorted_items (dict_set (KInt (rpc_chain_id E)) address d)),
    address, d.
  split; [exact Hload|]. split; [reflexivity|].
  split; [apply sorted_items_perm|].
  intro Hint. unfold Yaml.sorted_items.
  rewrite (forallb_keys_dict_set Yaml.is_int (KInt (rpc_chain_id E)) address d
             eq_refl Hint).
  apply sort_ascending.
Qed.

Lemma X18_written_entries_are_sorted_witness :
  connect_and_deploy (sample_env 421614) (start sample_files)
  = (Returned 421614,
     snd (connect_and_deploy (sample_env 421614) (start sample_files)))
  /\ deployments_yaml
       (fs (snd (connect_and_deploy (sample_env 421614)
                   (start sample_files))))
     = Some (Yaml.Mapping [(KInt 421614, sample_address);
                           (KInt 11155111, sample_home_address)])
  /\ exists entries : list (pykey * string),
       deployments_yaml
         (fs (snd (connect_and_deploy (sample_env 421614)
                     (start sample_files))))
       = Some (Yaml.Mapping entries)
       /\ ascending entries.
Proof.
  assert (Hrun :
    connect_and_deploy (sample_env 421614) (start sample_files)
    = (Returned 421614,
       snd (connect_and_deploy (sample_env 421614) (start sample_files))))
    by (vm_compute; reflexivity).
  split; [exact Hrun|]. split; [vm_compute; reflexivity|].
  destruct (X18_written_entries_are_sorted _ _ _ _ Hrun)
    as (entries & address & d & Hload & Hy & _ & Hasc).
  exists entries. split; [exact Hy|].
  apply Hasc. cbn [start fs] in Hload. vm_compute in Hload.
  injection Hload as <-. reflexivity.
Defined.

(** X19.  When [createX.json] is missing and the steps before it go
    through, [deploy] raises [FileNotFoundError] with the eleven random bytes
    already drawn, before the contract is compiled and before the factory is
    called, and every file is what it was. *)
Theorem X19_missing_factory_abi (E : environment) (st : state)
        (guard_bytes : list byte) :
  rpc_reachable E = true ->
  fromhex (str_drop 2 (eoa E) ++ "00")%string = Some guard_bytes ->
  createX_json (fs st) = None ->
  deploy E st
  = (Raised FileNotFoundError,
     mkState (fs st)
       (trace st ++ [SetNetworkEnv (WEB3_PROVIDER_URL E); AddAccount])
       (drawn st + 11)).
Proof.
  intros Hrpc Hhex Habi.
  rewrite deploy_unfold, connect_and_deploy_run. cbv zeta.
  rewrite Hrpc, Hhex, Habi. now rewrite <- app_assoc.
Qed.

Lemma X19_missing_factory_abi_witness :
  createX_json (fs (start no_files)) = None
  /\ fst (deploy (sample_env 421614) (start no_files))
     = Raised FileNotFoundError.
Proof.
  assert (Hhex : fromhex (str_drop 2 (eoa (sample_env 421614)) ++ "00")%string
                 = Some (sample_deployer ++ [x00]))
    by (vm_compute; reflexivity).
  split; [reflexivity|].
  now rewrite (X19_missing_factory_abi (sample_env 421614) (start no_files)
                 _ eq_refl Hhex eq_refl).
Defined.
